(** * Transcriptor: a shallow embedding of [transcriptor_gui.py]

    The program is a Tk application with three event handlers
    ([seleccionar_archivo], [transcribir], [encriptar]), one background
    worker ([run]) and a start-up check of the API credential.  The
    handlers are embedded as computations in a small state-and-exception
    monad over a [World]: the program's own globals and widgets ([App]),
    the answers of the operating system and of the remote service
    ([Env]), and the log of what the user and the network get to see.

    Python values are modelled as the interpreter has them: a [str] is a
    sequence of Unicode code points, a [bytes] object a sequence of
    bytes, [os.environ] a dictionary.  What the program cannot decide
    itself (the answer of the file dialog, the content of a file, the
    answer of the service, the bytes of [os.urandom], the clock) is read
    from [Env]; a handler and the worker each run in one piece. *)

From Stdlib Require Import NArith ZArith List Lia Strings.Byte Ascii String Bool.
From stdpp Require Import base option list gmap.

Local Open Scope N_scope.

(** ** Python [bytes] and [str] *)

(** A [str] is a sequence of code points; lone surrogates (U+D800..U+DFFF)
    are legal members of a [str] and only rejected by the UTF-8 codec. *)
Abbreviation bytes := (list byte).
Abbreviation pystr := (list N).

Definition byte_of_N (n : N) : byte :=
  match Byte.of_N n with Some b => b | None => x00 end.

Definition is_surrogate (c : N) : bool := (0xD800 <=? c) && (c <? 0xE000).

(** [str.encode()] for one code point ([None]: UnicodeEncodeError). *)
Definition utf8_encode_char (c : N) : option bytes :=
  if c <? 0x80 then Some [byte_of_N c]
  else if c <? 0x800 then
    Some [byte_of_N (0xC0 + c / 64); byte_of_N (0x80 + c mod 64)]
  else if is_surrogate c then None
  else if c <? 0x10000 then
    Some [byte_of_N (0xE0 + c / 4096); byte_of_N (0x80 + (c / 64) mod 64);
          byte_of_N (0x80 + c mod 64)]
  else if c <? 0x110000 then
    Some [byte_of_N (0xF0 + c / 262144); byte_of_N (0x80 + (c / 4096) mod 64);
          byte_of_N (0x80 + (c / 64) mod 64); byte_of_N (0x80 + c mod 64)]
  else None.

Fixpoint utf8_encode (s : pystr) : option bytes :=
  match s with
  | [] => Some []
  | c :: s' =>
      match utf8_encode_char c, utf8_encode s' with
      | Some b, Some bs => Some (b ++ bs)
      | _, _ => None
      end
  end.

Definition is_cont (n : N) : bool := (0x80 <=? n) && (n <? 0xC0).

(** [bytes.decode()] (UTF-8, strict; [None]: UnicodeDecodeError). *)
Fixpoint utf8_decode (bs : bytes) : option pystr :=
  match bs with
  | [] => Some []
  | b0 :: r0 =>
      let n0 := Byte.to_N b0 in
      if n0 <? 0x80 then cons n0 <$> utf8_decode r0
      else if n0 <? 0xC2 then None
      else if n0 <? 0xE0 then
        match r0 with
        | b1 :: r1 =>
            let n1 := Byte.to_N b1 in
            if is_cont n1
            then cons ((n0 - 0xC0) * 64 + (n1 - 0x80)) <$> utf8_decode r1
            else None
        | _ => None
        end
      else if n0 <? 0xF0 then
        match r0 with
        | b1 :: b2 :: r2 =>
            let n1 := Byte.to_N b1 in
            let n2 := Byte.to_N b2 in
            let c := (n0 - 0xE0) * 4096 + (n1 - 0x80) * 64 + (n2 - 0x80) in
            if is_cont n1 && is_cont n2 && (0x800 <=? c) && negb (is_surrogate c)
            then cons c <$> utf8_decode r2
            else None
        | _ => None
        end
      else if n0 <? 0xF5 then
        match r0 with
        | b1 :: b2 :: b3 :: r3 =>
            let n1 := Byte.to_N b1 in
            let n2 := Byte.to_N b2 in
            let n3 := Byte.to_N b3 in
            let c := (n0 - 0xF0) * 262144 + (n1 - 0x80) * 4096
                     + (n2 - 0x80) * 64 + (n3 - 0x80) in
            if is_cont n1 && is_cont n2 && is_cont n3
               && (0x10000 <=? c) && (c <? 0x110000)
            then cons c <$> utf8_decode r3
            else None
        | _ => None
        end
      else None
  end.

(** A string literal of the source file, as the [str] it denotes (the
    source file is UTF-8). *)
Definition py (s : string) : pystr :=
  match utf8_decode (list_byte_of_string s) with
  | Some t => t
  | None => []
  end.

(** [bytes.decode('latin-1')]: byte [b] becomes the code point [b]. *)
Definition latin1_decode (bs : bytes) : pystr := map Byte.to_N bs.

(** [str.encode('latin-1')] ([None]: UnicodeEncodeError, a code point
    above U+00FF). *)
Fixpoint latin1_encode (s : pystr) : option bytes :=
  match s with
  | [] => Some []
  | c :: s' =>
      match Byte.of_N c, latin1_encode s' with
      | Some b, Some bs => Some (b :: bs)
      | _, _ => None
      end
  end.

(** [str.isspace] on one code point, as CPython's [_PyUnicode_IsWhitespace]. *)
Definition py_isspace (c : N) : bool :=
  ((0x09 <=? c) && (c <=? 0x0D)) || ((0x1C <=? c) && (c <=? 0x20))
  || (c =? 0x85) || (c =? 0xA0) || (c =? 0x1680)
  || ((0x2000 <=? c) && (c <=? 0x200A))
  || (c =? 0x2028) || (c =? 0x2029) || (c =? 0x202F) || (c =? 0x205F)
  || (c =? 0x3000).

Fixpoint lstrip (s : pystr) : pystr :=
  match s with
  | [] => []
  | c :: s' => if py_isspace c then lstrip s' else s
  end.

Definition rstrip (s : pystr) : pystr := rev (lstrip (rev s)).

(** [str.strip()] *)
Definition strip (s : pystr) : pystr := rstrip (lstrip s).

(** The truth value of a [str] ([if file:], [if not contenido:]). *)
Definition truthy (s : pystr) : bool :=
  match s with [] => false | _ => true end.

(** The truth value of a name bound to [None] or to a [str]. *)
Definition truthy_opt (o : option pystr) : bool :=
  match o with None => false | Some s => truthy s end.

(** ** [base64.urlsafe_b64encode] / [urlsafe_b64decode] *)

Definition b64_alphabet : bytes :=
  list_byte_of_string
    "ABCDEFGHIJKLMNOPQRSTUVWXYZabcdefghijklmnopqrstuvwxyz0123456789-_".

Definition b64_pad : byte := "="%byte.

Definition b64_char (n : N) : byte := nth (N.to_nat n) b64_alphabet b64_pad.

Fixpoint index_of (c : byte) (l : bytes) (i : N) : option N :=
  match l with
  | [] => None
  | x :: l' => if Byte.eqb c x then Some i else index_of c l' (N.succ i)
  end.

Definition b64_index (c : byte) : option N := index_of c b64_alphabet 0.

Fixpoint urlsafe_b64encode (bs : bytes) : bytes :=
  match bs with
  | [] => []
  | [x] =>
      let a := Byte.to_N x in
      [b64_char (a / 4); b64_char ((a mod 4) * 16); b64_pad; b64_pad]
  | [x; y] =>
      let a := Byte.to_N x in
      let b := Byte.to_N y in
      [b64_char (a / 4); b64_char ((a mod 4) * 16 + b / 16);
       b64_char ((b mod 16) * 4); b64_pad]
  | x :: y :: z :: rest =>
      let a := Byte.to_N x in
      let b := Byte.to_N y in
      let c := Byte.to_N z in
      b64_char (a / 4) :: b64_char ((a mod 4) * 16 + b / 16)
      :: b64_char ((b mod 16) * 4 + c / 64) :: b64_char (c mod 64)
      :: urlsafe_b64encode rest
  end.

(** One group of four characters; the last group may carry padding. *)
Definition b64_group (c0 c1 c2 c3 : byte) : option bytes :=
  match b64_index c0, b64_index c1 with
  | Some i0, Some i1 =>
      let x := byte_of_N (i0 * 4 + i1 / 16) in
      if Byte.eqb c3 b64_pad then
        if Byte.eqb c2 b64_pad then Some [x]
        else match b64_index c2 with
             | Some i2 => Some [x; byte_of_N ((i1 mod 16) * 16 + i2 / 4)]
             | None => None
             end
      else match b64_index c2, b64_index c3 with
           | Some i2, Some i3 =>
               Some [x; byte_of_N ((i1 mod 16) * 16 + i2 / 4);
                     byte_of_N ((i2 mod 4) * 64 + i3)]
           | _, _ => None
           end
  | _, _ => None
  end.

(** The decoder on canonical input (what [urlsafe_b64encode] produces);
    [None] stands for [binascii.Error]. *)
Fixpoint urlsafe_b64decode (cs : bytes) : option bytes :=
  match cs with
  | [] => Some []
  | c0 :: c1 :: c2 :: c3 :: rest =>
      match b64_group c0 c1 c2 c3, urlsafe_b64decode rest with
      | Some g, Some r =>
          if Byte.eqb c3 b64_pad && negb (Nat.eqb (length rest) 0)
          then None else Some (g ++ r)
      | _, _ => None
      end
  | _ => None
  end.

(** ** The primitives behind [cryptography.fernet]

    [Fernet] is AES-128 in CBC mode with PKCS7 padding, authenticated by
    HMAC-SHA256.  The primitives belong to the library, not to the
    program; they are written out after FIPS 197, FIPS 180-4 and RFC 2104
    so that a token can be computed, and are tried on the published test
    vectors below.  Bytes are handled as numbers below 256 inside them. *)

Fixpoint chunks {A} (size count : nat) (l : list A) : list (list A) :=
  match count with
  | O => []
  | S c => take size l :: chunks size c (drop size l)
  end.

Module SHA256.

Definition w32 (x : N) : N := x mod 4294967296.
Definition add32 (x y : N) : N := w32 (x + y).
Definition rotr (n x : N) : N :=
  N.lor (N.shiftr x n) (w32 (N.shiftl x (32 - n))).
Definition not32 (x : N) : N := N.lxor x 0xFFFFFFFF.

Definition Ch (x y z : N) : N := N.lxor (N.land x y) (N.land (not32 x) z).
Definition Maj (x y z : N) : N :=
  N.lxor (N.lxor (N.land x y) (N.land x z)) (N.land y z).
Definition Sigma0 (x : N) : N :=
  N.lxor (N.lxor (rotr 2 x) (rotr 13 x)) (rotr 22 x).
Definition Sigma1 (x : N) : N :=
  N.lxor (N.lxor (rotr 6 x) (rotr 11 x)) (rotr 25 x).
Definition sigma0 (x : N) : N :=
  N.lxor (N.lxor (rotr 7 x) (rotr 18 x)) (N.shiftr x 3).
Definition sigma1 (x : N) : N :=
  N.lxor (N.lxor (rotr 17 x) (rotr 19 x)) (N.shiftr x 10).

(** The constants are the first 32 bits of the fractional parts of the
    cube roots (for [K]) and square roots (for [H0]) of the first
    primes. *)
Definition is_prime (p : N) : bool :=
  (2 <=? p)
  && forallb (fun d => negb (p mod d =? 0) || (p <=? d))
             (map N.of_nat (seq 2 16)).

Definition primes : list N := filter is_prime (map N.of_nat (seq 2 310)).

Fixpoint cube_root (bits : nat) (n r : N) : N :=
  match bits with
  | O => r
  | S b =>
      let r' := r + 2 ^ N.of_nat b in
      cube_root b n (if r' * r' * r' <=? n then r' else r)
  end.

Definition K : list N :=
  Eval vm_compute in
    map (fun p => w32 (cube_root 36 (p * 2 ^ 96) 0)) (take 64 primes).

(** The eight working variables. *)
Definition hash_state : Type := N * N * N * N * N * N * N * N.

Definition frac_sqrt (i : nat) : N :=
  w32 (N.sqrt (nth i primes 0 * 2 ^ 64)).

Definition H0 : hash_state :=
  Eval vm_compute in
    (frac_sqrt 0, frac_sqrt 1, frac_sqrt 2, frac_sqrt 3,
     frac_sqrt 4, frac_sqrt 5, frac_sqrt 6, frac_sqrt 7).

Definition be32 (x : N) : list N :=
  [(x / 16777216) mod 256; (x / 65536) mod 256; (x / 256) mod 256; x mod 256].

Definition word_of (l : list N) : N :=
  fold_left (fun acc b => acc * 256 + b) l 0.

Definition be64 (x : N) : list N :=
  be32 ((x / 4294967296) mod 4294967296) ++ be32 (x mod 4294967296).

(** The padded message: one 1 bit, zeros, the bit length on 64 bits. *)
Definition pad (msg : list N) : list N :=
  let len := N.of_nat (length msg) in
  let zeros := (64 - (len + 9) mod 64) mod 64 in
  msg ++ [0x80] ++ repeat 0 (N.to_nat zeros) ++ be64 (8 * len).

(** The schedule, most recent word first: [w] holds W[t-1], W[t-2], ... *)
Fixpoint schedule (n : nat) (w : list N) : list N :=
  match n with
  | O => w
  | S n' =>
      let x := add32 (add32 (sigma1 (nth 1 w 0)) (nth 6 w 0))
                     (add32 (sigma0 (nth 14 w 0)) (nth 15 w 0)) in
      schedule n' (x :: w)
  end.

Definition round (s : hash_state) (kw : N * N) : hash_state :=
  let '(a, b, c, d, e, f, g, h) := s in
  let t1 := add32 (add32 (add32 h (Sigma1 e)) (add32 (Ch e f g) (fst kw)))
                  (snd kw) in
  let t2 := add32 (Sigma0 a) (Maj a b c) in
  (add32 t1 t2, a, b, c, add32 d t1, e, f, g).

Definition compress (s : hash_state) (block : list N) : hash_state :=
  let w := rev (schedule 48 (rev (map word_of (chunks 4 16 block)))) in
  let '(a, b, c, d, e, f, g, h) := fold_left round (combine K w) s in
  let '(a0, b0, c0, d0, e0, f0, g0, h0) := s in
  (add32 a0 a, add32 b0 b, add32 c0 c, add32 d0 d,
   add32 e0 e, add32 f0 f, add32 g0 g, add32 h0 h).

Definition digest_of (s : hash_state) : list N :=
  let '(a, b, c, d, e, f, g, h) := s in
  be32 a ++ be32 b ++ be32 c ++ be32 d ++ be32 e ++ be32 f ++ be32 g ++ be32 h.

Definition sha256 (msg : list N) : list N :=
  let p := pad msg in
  digest_of (fold_left compress (chunks 64 (length p / 64) p) H0).

(** HMAC (RFC 2104) with SHA-256, block size 64. *)
Definition hmac (key msg : list N) : list N :=
  let k := if (64 <? length key)%nat then sha256 key else key in
  let k := k ++ repeat 0 (64 - length k) in
  sha256 (map (N.lxor 0x5c) k ++ sha256 (map (N.lxor 0x36) k ++ msg)).

End SHA256.

Module AES.

Definition sbox : list N :=
  [0x63; 0x7c; 0x77; 0x7b; 0xf2; 0x6b; 0x6f; 0xc5; 0x30; 0x01; 0x67; 0x2b; 0xfe; 0xd7; 0xab; 0x76;
   0xca; 0x82; 0xc9; 0x7d; 0xfa; 0x59; 0x47; 0xf0; 0xad; 0xd4; 0xa2; 0xaf; 0x9c; 0xa4; 0x72; 0xc0;
   0xb7; 0xfd; 0x93; 0x26; 0x36; 0x3f; 0xf7; 0xcc; 0x34; 0xa5; 0xe5; 0xf1; 0x71; 0xd8; 0x31; 0x15;
   0x04; 0xc7; 0x23; 0xc3; 0x18; 0x96; 0x05; 0x9a; 0x07; 0x12; 0x80; 0xe2; 0xeb; 0x27; 0xb2; 0x75;
   0x09; 0x83; 0x2c; 0x1a; 0x1b; 0x6e; 0x5a; 0xa0; 0x52; 0x3b; 0xd6; 0xb3; 0x29; 0xe3; 0x2f; 0x84;
   0x53; 0xd1; 0x00; 0xed; 0x20; 0xfc; 0xb1; 0x5b; 0x6a; 0xcb; 0xbe; 0x39; 0x4a; 0x4c; 0x58; 0xcf;
   0xd0; 0xef; 0xaa; 0xfb; 0x43; 0x4d; 0x33; 0x85; 0x45; 0xf9; 0x02; 0x7f; 0x50; 0x3c; 0x9f; 0xa8;
   0x51; 0xa3; 0x40; 0x8f; 0x92; 0x9d; 0x38; 0xf5; 0xbc; 0xb6; 0xda; 0x21; 0x10; 0xff; 0xf3; 0xd2;
   0xcd; 0x0c; 0x13; 0xec; 0x5f; 0x97; 0x44; 0x17; 0xc4; 0xa7; 0x7e; 0x3d; 0x64; 0x5d; 0x19; 0x73;
   0x60; 0x81; 0x4f; 0xdc; 0x22; 0x2a; 0x90; 0x88; 0x46; 0xee; 0xb8; 0x14; 0xde; 0x5e; 0x0b; 0xdb;
   0xe0; 0x32; 0x3a; 0x0a; 0x49; 0x06; 0x24; 0x5c; 0xc2; 0xd3; 0xac; 0x62; 0x91; 0x95; 0xe4; 0x79;
   0xe7; 0xc8; 0x37; 0x6d; 0x8d; 0xd5; 0x4e; 0xa9; 0x6c; 0x56; 0xf4; 0xea; 0x65; 0x7a; 0xae; 0x08;
   0xba; 0x78; 0x25; 0x2e; 0x1c; 0xa6; 0xb4; 0xc6; 0xe8; 0xdd; 0x74; 0x1f; 0x4b; 0xbd; 0x8b; 0x8a;
   0x70; 0x3e; 0xb5; 0x66; 0x48; 0x03; 0xf6; 0x0e; 0x61; 0x35; 0x57; 0xb9; 0x86; 0xc1; 0x1d; 0x9e;
   0xe1; 0xf8; 0x98; 0x11; 0x69; 0xd9; 0x8e; 0x94; 0x9b; 0x1e; 0x87; 0xe9; 0xce; 0x55; 0x28; 0xdf;
   0x8c; 0xa1; 0x89; 0x0d; 0xbf; 0xe6; 0x42; 0x68; 0x41; 0x99; 0x2d; 0x0f; 0xb0; 0x54; 0xbb; 0x16].

Definition sub (b : N) : N := nth (N.to_nat b) sbox 0.

(** A block is sixteen bytes, column after column. *)
Definition at_ (st : list N) (i : nat) : N := nth i st 0.

Definition sub_bytes (st : list N) : list N := map sub st.

Definition shift_rows (st : list N) : list N :=
  map (at_ st) [0; 5; 10; 15; 4; 9; 14; 3; 8; 13; 2; 7; 12; 1; 6; 11]%nat.

Definition xtime (b : N) : N :=
  if b <? 128 then 2 * b else N.lxor (2 * b - 256) 0x1b.

Definition mix_column (col : list N) : list N :=
  let a0 := at_ col 0 in
  let a1 := at_ col 1 in
  let a2 := at_ col 2 in
  let a3 := at_ col 3 in
  let x3 b := N.lxor (xtime b) b in
  [N.lxor (N.lxor (xtime a0) (x3 a1)) (N.lxor a2 a3);
   N.lxor (N.lxor a0 (xtime a1)) (N.lxor (x3 a2) a3);
   N.lxor (N.lxor a0 a1) (N.lxor (xtime a2) (x3 a3));
   N.lxor (N.lxor (x3 a0) a1) (N.lxor a2 (xtime a3))].

Definition mix_columns (st : list N) : list N :=
  concat (map mix_column (chunks 4 4 st)).

Definition add_round_key (st rk : list N) : list N :=
  map (fun i => N.lxor (at_ st i) (at_ rk i)) (seq 0 16).

(** The next round key from the previous one. *)
Definition next_key (rcon : N) (rk : list N) : list N :=
  let t := [N.lxor (sub (at_ rk 13)) rcon; sub (at_ rk 14);
            sub (at_ rk 15); sub (at_ rk 12)] in
  let w0 := map (fun i => N.lxor (at_ rk i) (at_ t i)) (seq 0 4) in
  let w1 := map (fun i => N.lxor (at_ rk (4 + i)) (at_ w0 i)) (seq 0 4) in
  let w2 := map (fun i => N.lxor (at_ rk (8 + i)) (at_ w1 i)) (seq 0 4) in
  let w3 := map (fun i => N.lxor (at_ rk (12 + i)) (at_ w2 i)) (seq 0 4) in
  w0 ++ w1 ++ w2 ++ w3.

Definition middle_round (acc : list N * list N) (rcon : N) : list N * list N :=
  let '(st, rk) := acc in
  let rk' := next_key rcon rk in
  (add_round_key (mix_columns (shift_rows (sub_bytes st))) rk', rk').

(** AES-128 on one block. *)
Definition encrypt_block (key block : list N) : list N :=
  let '(st, rk) :=
    fold_left middle_round [1; 2; 4; 8; 16; 32; 64; 128; 27]
              (add_round_key block key, key) in
  add_round_key (shift_rows (sub_bytes st)) (next_key 54 rk).

(** PKCS7 padding to the block size of 16. *)
Definition pkcs7 (data : list N) : list N :=
  let p := (16 - length data mod 16)%nat in
  data ++ repeat (N.of_nat p) p.

Fixpoint cbc (key : list N) (count : nat) (prev data : list N) : list N :=
  match count with
  | O => []
  | S c =>
      let ct := encrypt_block key (add_round_key (take 16 data) prev) in
      ct ++ cbc key c ct (drop 16 data)
  end.

(** [Cipher(AES(key), CBC(iv))] over the padded data. *)
Definition encrypt_cbc_pkcs7 (key iv data : list N) : list N :=
  let p := pkcs7 data in
  cbc key (length p / 16) iv p.

End AES.

(** ** The world the handlers run in *)

(** A raised exception: its class and what [str(e)] gives.  Everything
    raised here derives from [Exception] (the built-in errors of the
    codecs and of [open], the errors of the service client), which is
    what [except Exception] in [run] matches. *)
Record PyExc := mkExc { exc_type : string; exc_str : pystr }.

(** The module's globals and the contents of its widgets. *)
Record App := mkApp {
  API_KEY : pystr;
  selected_file : option pystr;
  text_raw : pystr;
  text_transcripcion : pystr;
  text_encriptado : pystr;
  progress : bool
}.

(** What the surroundings answer when asked. *)
Record Env := mkEnv {
  (** the path the file dialog returns; the empty string when cancelled *)
  dialog : pystr;
  (** [open(path, "rb")] and reading it: the content, or the OS error *)
  disk : pystr -> PyExc + bytes;
  (** the remote service on (model, file name, file content): the text of
      the result, or the client's exception *)
  service : pystr -> pystr -> bytes -> PyExc + pystr;
  (** the bytes [os.urandom] hands out, and how many were handed out *)
  entropy : nat -> byte;
  entropy_pos : nat;
  (** [int(time.time())]: a Python [int], which has a sign *)
  clock : Z
}.

(** What leaves the program: modal boxes, the dialog, file and network
    access, threads. *)
Inductive Event :=
| AskOpenFilename (title : pystr)
| ShowInfo (title message : pystr)
| ShowError (title message : pystr)
| OpenFile (path : pystr)
| TranscriptionRequest (model path : pystr)
| ThreadStart.

Record World := mkWorld {
  app : App;
  env : Env;
  log : list Event;
  (** workers started with [threading.Thread(target=run).start()] that
      have not run yet *)
  threads : nat
}.

Definition M (A : Type) : Type := World -> (PyExc + A) * World.

Definition ret {A} (a : A) : M A := fun w => (inr a, w).

Definition bind {A B} (m : M A) (k : A -> M B) : M B :=
  fun w => match m w with
           | (inl e, w') => (inl e, w')
           | (inr a, w') => k a w'
           end.

Definition raise {A} (e : PyExc) : M A := fun w => (inl e, w).

(** [try: body  except Exception as e: handler e] *)
Definition try_except {A} (body : M A) (handler : PyExc -> M A) : M A :=
  fun w => match body w with
           | (inl e, w') => handler e w'
           | (inr a, w') => (inr a, w')
           end.

Declare Scope py_scope.
Delimit Scope py_scope with py.
Notation "x <- m ;; k" := (bind m (fun x => k))
  (at level 100, m at next level, right associativity) : py_scope.
Notation "m ;; k" := (bind m (fun _ => k))
  (at level 100, right associativity) : py_scope.
Local Open Scope py_scope.

Definition with_app (f : App -> App) : M unit :=
  fun w => (inr tt, mkWorld (f (app w)) (env w) (log w) (threads w)).

Definition emit (ev : Event) : M unit :=
  fun w => (inr tt, mkWorld (app w) (env w) (log w ++ [ev]) (threads w)).

Definition ask {A} (f : World -> A) : M A := fun w => (inr (f w), w).

Definition lift_opt {A} (e : PyExc) (o : option A) : M A :=
  match o with Some a => ret a | None => raise e end.

(** *** tkinter

    The calls of the toolkit are taken to succeed: the window exists for
    as long as handlers and workers run. *)

Inductive Widget := W_raw | W_transcripcion | W_encriptado.

Definition contents (wd : Widget) (a : App) : pystr :=
  match wd with
  | W_raw => text_raw a
  | W_transcripcion => text_transcripcion a
  | W_encriptado => text_encriptado a
  end.

Definition set_contents (wd : Widget) (s : pystr) (a : App) : App :=
  match wd with
  | W_raw =>
      mkApp (API_KEY a) (selected_file a) s (text_transcripcion a)
            (text_encriptado a) (progress a)
  | W_transcripcion =>
      mkApp (API_KEY a) (selected_file a) (text_raw a) s
            (text_encriptado a) (progress a)
  | W_encriptado =>
      mkApp (API_KEY a) (selected_file a) (text_raw a) (text_transcripcion a)
            s (progress a)
  end.

Definition set_selected_file (o : option pystr) (a : App) : App :=
  mkApp (API_KEY a) o (text_raw a) (text_transcripcion a) (text_encriptado a)
        (progress a).

Definition set_progress (b : bool) (a : App) : App :=
  mkApp (API_KEY a) (selected_file a) (text_raw a) (text_transcripcion a)
        (text_encriptado a) b.

(** [widget.get("1.0", tk.END)]: the text, and the newline Tk keeps at
    the end of every text widget. *)
Definition Text_get (wd : Widget) : M pystr :=
  ask (fun w => contents wd (app w) ++ [10]).

(** [widget.delete("1.0", tk.END)] *)
Definition Text_delete (wd : Widget) : M unit := with_app (set_contents wd []).

(** [widget.insert(tk.END, s)] *)
Definition Text_insert (wd : Widget) (s : pystr) : M unit :=
  with_app (fun a => set_contents wd (contents wd a ++ s) a).

Definition progress_start : M unit := with_app (set_progress true).
Definition progress_stop : M unit := with_app (set_progress false).

Definition messagebox_showerror (title message : pystr) : M pystr :=
  emit (ShowError title message) ;; ret (py "ok").

Definition messagebox_showinfo (title message : pystr) : M pystr :=
  emit (ShowInfo title message) ;; ret (py "ok").

Definition filedialog_askopenfilename (title : pystr) : M pystr :=
  emit (AskOpenFilename title) ;; ask (fun w => dialog (env w)).

(** [threading.Thread(target=run).start()] *)
Definition Thread_start : M unit :=
  emit ThreadStart ;;
  (fun w => (inr tt, mkWorld (app w) (env w) (log w) (S (threads w)))).

(** *** the operating system and the service *)

(** [open(name, "rb")] and the content behind the handle. *)
Definition open_rb (name : option pystr) : M bytes :=
  match name with
  | None =>
      raise (mkExc "TypeError"
               (py "expected str, bytes or os.PathLike object, not NoneType"))
  | Some path =>
      emit (OpenFile path) ;;
      r <- ask (fun w => disk (env w) path) ;;
      match r with inl e => raise e | inr content => ret content end
  end.

Definition os_urandom (n : nat) : M bytes :=
  fun w =>
    let e := env w in
    (inr (map (entropy e) (seq (entropy_pos e) n)),
     mkWorld (app w)
             (mkEnv (dialog e) (disk e) (service e) (entropy e)
                    (entropy_pos e + n) (clock e))
             (log w) (threads w)).

Definition time_time : M Z := ask (fun w => clock (env w)).

(** [client.audio.transcriptions.create(model=..., file=audio).text] *)
Definition transcriptions_create (model path : pystr) (audio : bytes) : M pystr :=
  emit (TranscriptionRequest model path) ;;
  r <- ask (fun w => service (env w) model path audio) ;;
  match r with inl e => raise e | inr text => ret text end.

(** [str.encode()] and [bytes.decode()]; the message of the codec error
    is cut down to its reason. *)
Definition str_encode (s : pystr) : M bytes :=
  lift_opt (mkExc "UnicodeEncodeError" (py "surrogates not allowed"))
           (utf8_encode s).

Definition bytes_decode (b : bytes) : M pystr :=
  lift_opt (mkExc "UnicodeDecodeError" (py "invalid start byte"))
           (utf8_decode b).

(** *** [cryptography.fernet.Fernet] *)

Module Fernet.

Record t := mk { signing_key : bytes; encryption_key : bytes }.

Definition key_error : PyExc :=
  mkExc "ValueError" (py "Fernet key must be 32 url-safe base64-encoded bytes.").

(** [Fernet.generate_key()] *)
Definition generate_key : M bytes :=
  k <- os_urandom 32 ;; ret (urlsafe_b64encode k).

(** [Fernet(key)] *)
Definition new (key : bytes) : M t :=
  k <- lift_opt key_error (urlsafe_b64decode key) ;;
  if Nat.eqb (length k) 32 then ret (mk (take 16 k) (drop 16 k))
  else raise key_error.

(** [current_time.to_bytes(length=8, byteorder="big")]: the eight bytes
    of an unsigned integer.  [int.to_bytes] is unsigned unless told
    otherwise, and raises [OverflowError] on a negative integer and on
    one that eight bytes do not hold. *)
Definition timestamp (current_time : Z) : option bytes :=
  if ((0 <=? current_time) && (current_time <? 18446744073709551616))%Z
  then Some (map byte_of_N (SHA256.be64 (Z.to_N current_time)))
  else None.

(** The exception [int.to_bytes] raises on [current_time]. *)
Definition overflow_error (current_time : Z) : PyExc :=
  mkExc "OverflowError"
        (if (current_time <? 0)%Z
         then py "can't convert negative int to unsigned"
         else py "int too big to convert").

(** The token from its parts: version byte, time, IV, ciphertext, tag. *)
Definition token (f : t) (data ts iv : bytes) : bytes :=
  let ciphertext :=
    map byte_of_N
        (AES.encrypt_cbc_pkcs7 (map Byte.to_N (encryption_key f))
                               (map Byte.to_N iv) (map Byte.to_N data)) in
  let basic_parts := x80 :: ts ++ iv ++ ciphertext in
  let hmac :=
    map byte_of_N
        (SHA256.hmac (map Byte.to_N (signing_key f))
                     (map Byte.to_N basic_parts)) in
  urlsafe_b64encode (basic_parts ++ hmac).

Definition encrypt_from_parts (f : t) (data : bytes) (current_time : Z)
           (iv : bytes) : M bytes :=
  ts <- lift_opt (overflow_error current_time) (timestamp current_time) ;;
  ret (token f data ts iv).

(** [f.encrypt(data)] *)
Definition encrypt (f : t) (data : bytes) : M bytes :=
  now <- time_time ;;
  iv <- os_urandom 16 ;;
  encrypt_from_parts f data now iv.

End Fernet.

(** ** The program *)

(** Start-up: [load_dotenv()] adds the entries of the [.env] file that
    [os.environ] does not have yet; then the credential is read.  The
    result is the exception that ends the process, or the application
    as it stands when the event loop starts. *)
Definition load_dotenv (dotenv environ : gmap pystr pystr) : gmap pystr pystr :=
  environ ∪ dotenv.

Definition os_getenv (environ : gmap pystr pystr) (name : pystr) : option pystr :=
  environ !! name.

Definition startup (dotenv environ : gmap pystr pystr) : PyExc + App :=
  let environ := load_dotenv dotenv environ in
  let key := os_getenv environ (py "OPENAI_API_KEY") in
  if negb (truthy_opt key)
  then inl (mkExc "Exception" (py "No se encontró la API KEY en .env"))
  else inr (mkApp (default [] key) None [] [] [] false).

Definition encrypt_text (text : pystr) : M pystr :=
  key <- Fernet.generate_key ;;
  f <- Fernet.new key ;;
  data <- str_encode text ;;
  encrypted <- Fernet.encrypt f data ;;
  bytes_decode encrypted.

Definition seleccionar_archivo : M unit :=
  file <- filedialog_askopenfilename (py "Seleccionar audio") ;;
  if truthy file then
    with_app (set_selected_file (Some file)) ;;
    name <- ask (fun w => selected_file (app w)) ;;
    raw <- open_rb name ;;
    let raw_text := latin1_decode (take 3000 raw) in
    Text_delete W_raw ;;
    Text_insert W_raw raw_text ;;
    messagebox_showinfo
      (py "Archivo cargado")
      (py "Archivo cargado:" ++ [10] ++ file ++ [10; 10]
          ++ py "Vista RAW mostrada arriba.") ;;
    ret tt
  else ret tt.

(** The worker of [transcribir]. *)
Definition run : M unit :=
  progress_start ;;
  try_except
    (name <- ask (fun w => selected_file (app w)) ;;
     audio <- open_rb name ;;
     text <- transcriptions_create (py "gpt-4o-transcribe")
                                   (default [] name) audio ;;
     Text_delete W_transcripcion ;;
     Text_insert W_transcripcion text)
    (fun e => messagebox_showerror (py "Error") (exc_str e) ;; ret tt) ;;
  progress_stop.

(** The handler returns what [messagebox.showerror] returned, or [None]. *)
Definition transcribir : M (option pystr) :=
  name <- ask (fun w => selected_file (app w)) ;;
  if negb (truthy_opt name) then
    r <- messagebox_showerror (py "Error")
                              (py "Seleccione un archivo de audio primero") ;;
    ret (Some r)
  else
    Thread_start ;; ret None.

Definition encriptar : M (option pystr) :=
  got <- Text_get W_transcripcion ;;
  let contenido := strip got in
  if negb (truthy contenido) then
    r <- messagebox_showerror (py "Error")
                              (py "No hay texto transcrito para encriptar") ;;
    ret (Some r)
  else
    encrypted <- encrypt_text contenido ;;
    Text_delete W_encriptado ;;
    Text_insert W_encriptado encrypted ;;
    ret None.

(** * Notions for the statements *)

(** The state a handler leaves behind, and what it returned or raised. *)
Definition after {A} (m : M A) (w : World) : World := snd (m w).
Definition outcome {A} (m : M A) (w : World) : PyExc + A := fst (m w).

(** The world with more events in its log and nothing else changed. *)
Definition logged (w : World) (evs : list Event) : World :=
  mkWorld (app w) (env w) (log w ++ evs) (threads w).

(** Events that reach the network, and events that show a modal box. *)
Definition is_request (ev : Event) : bool :=
  match ev with TranscriptionRequest _ _ => true | _ => false end.

Definition is_message (ev : Event) : bool :=
  match ev with ShowInfo _ _ | ShowError _ _ => true | _ => false end.

(** The transcription model fixed in [run]. *)
Definition model_name : pystr := py "gpt-4o-transcribe".

(** The error boxes and the start-up exception, as the source spells
    them. *)
Definition select_first : Event :=
  ShowError (py "Error") (py "Seleccione un archivo de audio primero").

Definition nothing_to_encrypt : Event :=
  ShowError (py "Error") (py "No hay texto transcrito para encriptar").

Definition no_api_key : PyExc :=
  mkExc "Exception" (py "No se encontró la API KEY en .env").

Definition credential : pystr := py "OPENAI_API_KEY".

(** A world to try the handlers on: nothing selected, "hello world"
    transcribed, a disk holding one ten-byte file, a service that is
    over its quota. *)
Definition sample_wav : bytes := repeat x00 10.

Definition sample_env : Env :=
  mkEnv (py "sample.wav")
        (fun p => if decide (p = py "sample.wav") then inr sample_wav
                  else inl (mkExc "FileNotFoundError"
                                  (py "[Errno 2] No such file or directory")))
        (fun _ _ _ => inl (mkExc "RateLimitError" (py "rate limit exceeded")))
        (fun i => byte_of_N (N.of_nat i mod 256)) 0 1700000000.

Definition sample_world : World :=
  mkWorld (mkApp (py "sk-test") None [] (py "hello world") [] false)
          sample_env [] 0.

(** The same with [sample.wav] selected. *)
Definition sample_selected : World :=
  mkWorld (set_selected_file (Some (py "sample.wav")) (app sample_world))
          sample_env [] 0.

(** The same with a service that answers "hello world", over a display
    that holds an older transcription. *)
Definition sample_answering : World :=
  mkWorld (set_contents W_transcripcion (py "older text") (app sample_selected))
          (mkEnv (dialog sample_env) (disk sample_env)
                 (fun _ _ _ => inr (py "hello world"))
                 (entropy sample_env) 0 (clock sample_env))
          [] 0.

(** The same with a cancelled dialog, and with a transcription display
    that holds two blanks. *)
Definition sample_cancelled : World :=
  mkWorld (app sample_world)
          (mkEnv [] (disk sample_env) (service sample_env)
                 (entropy sample_env) 0 (clock sample_env))
          [] 0.

Definition sample_blank : World :=
  mkWorld (set_contents W_transcripcion (py "  ") (app sample_world))
          sample_env [] 0.

(** A file was selected and is no longer on the disk. *)
Definition sample_deleted : World :=
  mkWorld (set_selected_file (Some (py "gone.mp3")) (app sample_world))
          sample_env [] 0.

(** The character of a six-bit value decodes to that value and is not
    the padding character. *)
Definition b64_digit_ok (n : N) : bool :=
  match b64_index (b64_char n) with
  | Some m => (m =? n) && negb (Byte.eqb (b64_char n) b64_pad)
  | None => false
  end.

(** A byte that is one ASCII character. *)
Definition is_ascii (b : byte) : bool := Byte.to_N b <? 128.

(** The bytes the next calls of [os.urandom] return: [n] bytes after
    skipping [off]. *)
Definition drawn (e : Env) (off n : nat) : bytes :=
  map (entropy e) (seq (entropy_pos e + off) n).

(** The environment after [n] bytes were taken from [os.urandom]. *)
Definition advance (n : nat) (e : Env) : Env :=
  mkEnv (dialog e) (disk e) (service e) (entropy e) (entropy_pos e + n)
        (clock e).

(** The key [encrypt_text] generates in this environment, and the IV
    [Fernet.encrypt] draws after it. *)
Definition fernet_of (e : Env) : Fernet.t :=
  Fernet.mk (take 16 (drawn e 0 32)) (drop 16 (drawn e 0 32)).

(** The text [encriptar] takes from the transcription display. *)
Definition contenido_of (w : World) : pystr :=
  strip (text_transcripcion (app w) ++ [10]).

(** The IV [Fernet.encrypt] draws when [encrypt_text] runs in [e]. *)
Definition iv_of (e : Env) : bytes := drawn e 32 16.

(** The key [encrypt_text] generates in [e], as [Fernet.generate_key]
    returns it: the url-safe base64 text of 32 random bytes. *)
Definition key_of (e : Env) : bytes := urlsafe_b64encode (drawn e 0 32).

(** The strings the application holds: the two globals and what the
    three displays show. *)
Definition held (a : App) : list pystr :=
  API_KEY a :: from_option (fun p => [p]) [] (selected_file a)
  ++ [text_raw a; text_transcripcion a; text_encriptado a].



(** * The event loop

    [window.mainloop()] runs the command of whichever button is pressed;
    a handler that raises is reported by Tk and the loop goes on.  In
    between, the user may type into a text widget, a started worker may
    run, and the surroundings may change. *)

Inductive Action :=
| Press_seleccionar
| Press_transcribir
| Press_encriptar
| Worker_runs
| Typing (wd : Widget) (s : pystr)
| Surroundings (e : Env).

(** One step of the loop; a worker runs only if one was started. *)
Definition perform (a : Action) (w : World) : option World :=
  match a with
  | Press_seleccionar => Some (after seleccionar_archivo w)
  | Press_transcribir => Some (after transcribir w)
  | Press_encriptar => Some (after encriptar w)
  | Worker_runs =>
      match threads w with
      | O => None
      | S n => Some (after run (mkWorld (app w) (env w) (log w) n))
      end
  | Typing wd s =>
      Some (mkWorld (set_contents wd s (app w)) (env w) (log w) (threads w))
  | Surroundings e => Some (mkWorld (app w) e (log w) (threads w))
  end.

Fixpoint play (acts : list Action) (w : World) : option World :=
  match acts with
  | [] => Some w
  | a :: rest =>
      match perform a w with
      | Some w' => play rest w'
      | None => None
      end
  end.

(** The world in which the event loop starts. *)
Definition boot (a : App) (e : Env) : World := mkWorld a e [] 0.

Definition is_thread_start (ev : Event) : bool :=
  match ev with ThreadStart => true | _ => false end.

Definition count_events (p : Event -> bool) (l : list Event) : nat :=
  length (List.filter p l).

(** A request for the model fixed in [run]. *)
Definition uses_fixed_model (ev : Event) : Prop :=
  match ev with
  | TranscriptionRequest model _ => model = model_name
  | _ => True
  end.

(** The events a handler added to the log. *)
Definition added {A} (m : M A) (w : World) : list Event :=
  drop (length (log w)) (log (after m w)).

(** A second file on the sample disk. *)
Definition other_env : Env :=
  mkEnv (py "other.mp3")
        (fun p => if decide (p = py "other.mp3")
                  then inr (list_byte_of_string "ID3")
                  else disk sample_env p)
        (fun _ p _ => inr (py "text of " ++ p))
        (entropy sample_env) 0 (clock sample_env).

(** [sample.wav] is selected, the dialog is about to answer
    [other.mp3]. *)
Definition sample_reselect : World :=
  mkWorld (app sample_selected) other_env [] 0.

(** The dialog answers a path the disk cannot read. *)
Definition sample_unreadable : World :=
  mkWorld (set_contents W_raw (py "old preview") (app sample_selected))
          (mkEnv (py "gone.mp3") (disk sample_env) (service sample_env)
                 (entropy sample_env) 0 (clock sample_env))
          [] 0.

(** [sample.wav] is selected and the service answers. *)
Definition sample_ready : World :=
  mkWorld (app sample_selected)
          (mkEnv (dialog sample_env) (disk sample_env)
                 (fun _ _ _ => inr (py "hello world"))
                 (entropy sample_env) 0 (clock sample_env))
          [] 0.

(** A character of url-safe base64 text: the alphabet or the padding. *)
Definition is_b64_text (c : N) : bool :=
  existsb (N.eqb c) (latin1_decode (b64_pad :: b64_alphabet)).

(** A [str] as Python builds them: code points up to U+10FFFF. *)
Definition well_formed (s : pystr) : Prop := Forall (fun c => c < 0x110000) s.

(** The world after the user typed [s] into the transcription display. *)
Definition retyped (s : pystr) (w : World) : World :=
  mkWorld (set_contents W_transcripcion s (app w)) (env w) (log w) (threads w).

(** The clock is beyond what eight bytes hold. *)
Definition sample_late : World :=
  mkWorld (app sample_world)
          (mkEnv (dialog sample_env) (disk sample_env) (service sample_env)
                 (entropy sample_env) 0 18446744073709551616)
          [] 0.

(** What [encrypt_text] returns or raises on [text] in the surroundings
    [e], and how many random bytes it takes. *)
Definition encrypt_text_result (text : pystr) (e : Env) : (PyExc + pystr) * nat :=
  match utf8_encode text with
  | None =>
      (inl (mkExc "UnicodeEncodeError" (py "surrogates not allowed")), 32%nat)
  | Some data =>
      match Fernet.timestamp (clock e) with
      | None => (inl (Fernet.overflow_error (clock e)), 48%nat)
      | Some ts =>
          (inr (latin1_decode
                  (Fernet.token (fernet_of e) data ts (drawn e 32 16))),
           48%nat)
      end
  end.

(** The application as the module leaves it when the credential is
    [key]. *)
Definition initial_app (key : pystr) : App := mkApp key None [] [] [] false.

(** What holds of the world at every turn of the event loop that
    started with the credential [key]. *)
Definition steady (key : pystr) (w : World) : Prop :=
  API_KEY (app w) = key
  /\ selected_file (app w) <> Some []
  /\ (threads w <> 0%nat -> truthy_opt (selected_file (app w)) = true)
  /\ Forall uses_fixed_model (log w)
  /\ (count_events is_request (log w) + threads w
      <= count_events is_thread_start (log w))%nat.

(** A session: pick [sample.wav], press the button twice, let one
    worker run, type into the display, encrypt. *)
Definition sample_session : list Action :=
  [Press_encriptar; Press_transcribir; Press_seleccionar; Press_transcribir;
   Press_transcribir; Worker_runs; Typing W_transcripcion (py " hola ");
   Press_encriptar].

(** The application just started, with a service that answers. *)
Definition sample_boot : World :=
  boot (initial_app (py "sk-test")) (env sample_ready).

(** * Verification *)

Arguments py : simpl never.

(** Unfolds the operations of the monad and of the toolkit, leaving the
    answers of the environment to be rewritten. *)
Ltac mred :=
  cbv beta iota zeta delta
    [bind ret raise try_except with_app emit ask lift_opt
     Text_get Text_delete Text_insert progress_start progress_stop
     messagebox_showerror messagebox_showinfo filedialog_askopenfilename
     Thread_start open_rb time_time transcriptions_create
     after outcome logged set_contents contents set_selected_file
     set_progress app env log threads API_KEY selected_file text_raw
     text_transcripcion text_encriptado progress dialog disk service
     entropy entropy_pos clock fst snd from_option id].

(** Splits a world into its components. *)
Ltac open_world w :=
  destruct w as [[? ? ? ? ? ?] [? ? ? ? ? ?] ? ?]; cbn [app env log threads
     API_KEY selected_file text_raw text_transcripcion text_encriptado
     progress dialog disk service entropy entropy_pos clock] in *.

Lemma logged_nil w : logged w [] = w.
Proof. destruct w; unfold logged; simpl; by rewrite app_nil_r. Qed.

Lemma set_contents_same wd a : set_contents wd (contents wd a) a = a.
Proof. by destruct wd, a. Qed.

Lemma text_encriptado_set s a :
  text_encriptado (set_contents W_encriptado s a) = s.
Proof. reflexivity. Qed.

Ltac div_lia := zify; Z.to_euclidean_division_equations; lia.

(** ** Codecs *)

Lemma byte_of_to_N b : byte_of_N (Byte.to_N b) = b.
Proof. unfold byte_of_N. by rewrite Byte.of_to_N. Qed.

Lemma to_N_lt b : Byte.to_N b < 256.
Proof. pose proof (Byte.to_N_bounded b). lia. Qed.

Lemma to_of_byte_N n : n < 256 -> Byte.to_N (byte_of_N n) = n.
Proof.
  intros H. unfold byte_of_N. destruct (Byte.of_N n) as [b|] eqn:E.
  - by apply Byte.to_of_N.
  - apply Byte.of_N_None_iff in E. lia.
Qed.

Lemma list_ind3 {A} (P : list A -> Prop) :
  P [] -> (forall x, P [x]) -> (forall x y, P [x; y]) ->
  (forall x y z l, P l -> P (x :: y :: z :: l)) ->
  forall l, P l.
Proof.
  intros H0 H1 H2 H3. fix IH 1.
  intros [|x [|y [|z l]]]; [apply H0|apply H1|apply H2|apply H3, IH].
Qed.


Lemma b64_digits_ok : forallb b64_digit_ok (map N.of_nat (seq 0 64)) = true.
Proof. vm_compute. reflexivity. Qed.

Lemma b64_digit n :
  n < 64 ->
  b64_index (b64_char n) = Some n /\ Byte.eqb (b64_char n) b64_pad = false.
Proof.
  intros Hn. pose proof b64_digits_ok as H.
  rewrite forallb_forall in H. specialize (H n).
  assert (In n (map N.of_nat (seq 0 64))) as Hin.
  { apply in_map_iff. exists (N.to_nat n). split; [lia|].
    apply in_seq. lia. }
  apply H in Hin. unfold b64_digit_ok in Hin.
  destruct (b64_index (b64_char n)) as [m|]; [|discriminate].
  apply andb_prop in Hin as [Hm Hp]. apply N.eqb_eq in Hm. subst m.
  split; [done|]. by apply negb_true_iff.
Qed.

Lemma b64_group_full x y z :
  let a := Byte.to_N x in
  let b := Byte.to_N y in
  let c := Byte.to_N z in
  b64_group (b64_char (a / 4)) (b64_char ((a mod 4) * 16 + b / 16))
            (b64_char ((b mod 16) * 4 + c / 64)) (b64_char (c mod 64))
  = Some [x; y; z].
Proof.
  intros a b c.
  pose proof (to_N_lt x). pose proof (to_N_lt y). pose proof (to_N_lt z).
  fold a in H. fold b in H0. fold c in H1.
  destruct (b64_digit (a / 4)) as [E0 _]; [div_lia|].
  destruct (b64_digit ((a mod 4) * 16 + b / 16)) as [E1 _]; [div_lia|].
  destruct (b64_digit ((b mod 16) * 4 + c / 64)) as [E2 _]; [div_lia|].
  destruct (b64_digit (c mod 64)) as [E3 P3]; [div_lia|].
  unfold b64_group. rewrite E0, E1, E2, E3, P3.
  replace (a / 4 * 4 + (a mod 4 * 16 + b / 16) / 16) with a by div_lia.
  replace ((a mod 4 * 16 + b / 16) mod 16 * 16 + (b mod 16 * 4 + c / 64) / 4)
    with b by div_lia.
  replace ((b mod 16 * 4 + c / 64) mod 4 * 64 + c mod 64) with c by div_lia.
  subst a b c. by rewrite !byte_of_to_N.
Qed.

Lemma b64_group_two x y :
  let a := Byte.to_N x in
  let b := Byte.to_N y in
  b64_group (b64_char (a / 4)) (b64_char ((a mod 4) * 16 + b / 16))
            (b64_char ((b mod 16) * 4)) b64_pad
  = Some [x; y].
Proof.
  intros a b.
  pose proof (to_N_lt x). pose proof (to_N_lt y).
  fold a in H. fold b in H0.
  destruct (b64_digit (a / 4)) as [E0 _]; [div_lia|].
  destruct (b64_digit ((a mod 4) * 16 + b / 16)) as [E1 _]; [div_lia|].
  destruct (b64_digit ((b mod 16) * 4)) as [E2 P2]; [div_lia|].
  unfold b64_group. rewrite E0, E1, E2, P2.
  replace (Byte.eqb b64_pad b64_pad) with true by reflexivity.
  replace (a / 4 * 4 + (a mod 4 * 16 + b / 16) / 16) with a by div_lia.
  replace ((a mod 4 * 16 + b / 16) mod 16 * 16 + (b mod 16 * 4) / 4)
    with b by div_lia.
  subst a b. by rewrite !byte_of_to_N.
Qed.

Lemma b64_group_one x :
  let a := Byte.to_N x in
  b64_group (b64_char (a / 4)) (b64_char ((a mod 4) * 16)) b64_pad b64_pad
  = Some [x].
Proof.
  intros a. pose proof (to_N_lt x). fold a in H.
  destruct (b64_digit (a / 4)) as [E0 _]; [div_lia|].
  destruct (b64_digit ((a mod 4) * 16)) as [E1 _]; [div_lia|].
  unfold b64_group. rewrite E0, E1.
  replace (Byte.eqb b64_pad b64_pad) with true by reflexivity.
  replace (a / 4 * 4 + (a mod 4 * 16) / 16) with a by div_lia.
  subst a. by rewrite !byte_of_to_N.
Qed.

Lemma urlsafe_b64decode_encode bs :
  urlsafe_b64decode (urlsafe_b64encode bs) = Some bs.
Proof.
  induction bs as [|x|x y|x y z l IH] using list_ind3.
  - done.
  - cbn [urlsafe_b64encode urlsafe_b64decode]. by rewrite b64_group_one.
  - cbn [urlsafe_b64encode urlsafe_b64decode]. by rewrite b64_group_two.
  - cbn [urlsafe_b64encode urlsafe_b64decode].
    rewrite b64_group_full, IH.
    destruct (b64_digit (Byte.to_N z mod 64)) as [_ ->]; [div_lia|]. done.
Qed.


Lemma urlsafe_b64encode_length bs :
  length (urlsafe_b64encode bs) = (4 * ((length bs + 2) / 3))%nat.
Proof.
  induction bs as [|x|x y|x y z l IH] using list_ind3; try done.
  cbn [urlsafe_b64encode length]. rewrite IH.
  replace (S (S (S (length l))) + 2)%nat with (1 * 3 + (length l + 2))%nat by lia.
  rewrite Nat.div_add_l by lia. lia.
Qed.


Lemma b64_alphabet_ascii : forallb is_ascii (b64_pad :: b64_alphabet) = true.
Proof. vm_compute. reflexivity. Qed.

Lemma b64_char_ascii n : is_ascii (b64_char n) = true.
Proof.
  pose proof b64_alphabet_ascii as H. rewrite forallb_forall in H.
  apply H. unfold b64_char.
  destruct (nth_in_or_default (N.to_nat n) b64_alphabet b64_pad) as [Hin| ->].
  - by right.
  - by left.
Qed.

Lemma urlsafe_b64encode_ascii bs :
  forallb is_ascii (urlsafe_b64encode bs) = true.
Proof.
  assert (is_ascii b64_pad = true) as Hp by reflexivity.
  induction bs as [|x|x y|x y z l IH] using list_ind3; try done;
    cbn [urlsafe_b64encode forallb]; rewrite ?b64_char_ascii, ?Hp, ?IH; done.
Qed.

Lemma utf8_decode_ascii bs :
  forallb is_ascii bs = true -> utf8_decode bs = Some (latin1_decode bs).
Proof.
  induction bs as [|b bs IH]; [done|].
  cbn [forallb]. intros [Hb Hbs]%andb_prop.
  cbn [utf8_decode]. unfold is_ascii in Hb. rewrite Hb, IH by done. done.
Qed.

Lemma utf8_encode_char_length c b :
  utf8_encode_char c = Some b -> (1 <= length b)%nat.
Proof.
  unfold utf8_encode_char. repeat case_match; intros [= <-]; simpl; lia.
Qed.

Lemma utf8_encode_length s data :
  utf8_encode s = Some data -> (length s <= length data)%nat.
Proof.
  revert data. induction s as [|c s IH]; intros data.
  - intros [= <-]. done.
  - cbn [utf8_encode].
    destruct (utf8_encode_char c) as [b|] eqn:Eb; [|discriminate].
    destruct (utf8_encode s) as [bs|]; [|discriminate].
    intros [= <-]. apply utf8_encode_char_length in Eb.
    specialize (IH bs eq_refl). rewrite length_app. simpl. lia.
Qed.

(** ** Lengths inside a token *)

Lemma be32_length x : length (SHA256.be32 x) = 4%nat.
Proof. reflexivity. Qed.

Lemma be64_length x : length (SHA256.be64 x) = 8%nat.
Proof. reflexivity. Qed.

Lemma digest_length s : length (SHA256.digest_of s) = 32%nat.
Proof. by destruct s as [[[[[[[a b] c] d] e] f] g] h]. Qed.

Lemma sha256_length msg : length (SHA256.sha256 msg) = 32%nat.
Proof. apply digest_length. Qed.

Lemma hmac_length key msg : length (SHA256.hmac key msg) = 32%nat.
Proof. apply sha256_length. Qed.

Lemma add_round_key_length st rk : length (AES.add_round_key st rk) = 16%nat.
Proof. unfold AES.add_round_key. by rewrite length_map, length_seq. Qed.

Lemma encrypt_block_length key block :
  length (AES.encrypt_block key block) = 16%nat.
Proof.
  unfold AES.encrypt_block.
  destruct (fold_left _ _ _). apply add_round_key_length.
Qed.

Lemma cbc_length key count prev data :
  length (AES.cbc key count prev data) = (16 * count)%nat.
Proof.
  revert prev data. induction count as [|c IH]; intros prev data; [done|].
  cbn [AES.cbc]. rewrite length_app, encrypt_block_length, IH. lia.
Qed.

Lemma pkcs7_length data :
  length (AES.pkcs7 data) = (16 * (length data / 16 + 1))%nat.
Proof.
  unfold AES.pkcs7. rewrite length_app, repeat_length.
  pose proof (Nat.div_mod_eq (length data) 16).
  pose proof (Nat.mod_upper_bound (length data) 16). lia.
Qed.

Lemma encrypt_cbc_pkcs7_length key iv data :
  length (AES.encrypt_cbc_pkcs7 key iv data)
  = (16 * (length data / 16 + 1))%nat.
Proof.
  unfold AES.encrypt_cbc_pkcs7. rewrite cbc_length, pkcs7_length.
  replace (16 * (length data / 16 + 1) / 16)%nat
    with (length data / 16 + 1)%nat; [done|].
  symmetry. rewrite Nat.mul_comm. apply Nat.div_mul. lia.
Qed.

Lemma timestamp_length now ts :
  Fernet.timestamp now = Some ts -> length ts = 8%nat.
Proof.
  unfold Fernet.timestamp. case_match; [|discriminate].
  intros [= <-]. reflexivity.
Qed.

Lemma timestamp_in_range now :
  (0 <= now < 18446744073709551616)%Z -> is_Some (Fernet.timestamp now).
Proof.
  intros [H0 H]. unfold Fernet.timestamp.
  apply Z.leb_le in H0. apply Z.ltb_lt in H. rewrite H0, H. by eexists.
Qed.

(** The token is the base64 text of 57 bytes of framing around the
    padded ciphertext. *)
Lemma token_length f data ts iv :
  length ts = 8%nat -> length iv = 16%nat ->
  length (Fernet.token f data ts iv)
  = (4 * ((57 + 16 * (length data / 16 + 1) + 2) / 3))%nat.
Proof.
  intros Hts Hiv. unfold Fernet.token.
  rewrite urlsafe_b64encode_length.
  rewrite length_app, length_map, hmac_length. cbn [length].
  rewrite !length_app, length_map, encrypt_cbc_pkcs7_length, length_map,
          Hts, Hiv.
  do 2 f_equal. lia.
Qed.

Lemma token_longer_than_data f data ts iv :
  length ts = 8%nat -> length iv = 16%nat ->
  (length data < length (Fernet.token f data ts iv))%nat.
Proof.
  intros Hts Hiv. rewrite token_length by done.
  pose proof (Nat.div_mod_eq (length data) 16).
  pose proof (Nat.mod_upper_bound (length data) 16).
  pose proof (Nat.div_mod_eq (57 + 16 * (length data / 16 + 1) + 2) 3).
  pose proof (Nat.mod_upper_bound (57 + 16 * (length data / 16 + 1) + 2) 3).
  lia.
Qed.






(** ** Known answers

    The primitives against their published test vectors: SHA-256 of
    "abc" (FIPS 180-4), the AES-128 example of FIPS 197, appendix C.1,
    HMAC-SHA256 of a well-known sentence, and the token of the Fernet
    specification (its "generate" vector). *)

Example sha256_abc :
  SHA256.sha256 (map Byte.to_N (list_byte_of_string "abc"))
  = [0xba; 0x78; 0x16; 0xbf; 0x8f; 0x01; 0xcf; 0xea; 0x41; 0x41; 0x40; 0xde;
     0x5d; 0xae; 0x22; 0x23; 0xb0; 0x03; 0x61; 0xa3; 0x96; 0x17; 0x7a; 0x9c;
     0xb4; 0x10; 0xff; 0x61; 0xf2; 0x00; 0x15; 0xad].
Proof. vm_compute. reflexivity. Qed.

Example aes128_fips197 :
  AES.encrypt_block (map N.of_nat (seq 0 16))
                    (map (fun i => N.of_nat (17 * i)) (seq 0 16))
  = [0x69; 0xc4; 0xe0; 0xd8; 0x6a; 0x7b; 0x04; 0x30;
     0xd8; 0xcd; 0xb7; 0x80; 0x70; 0xb4; 0xc5; 0x5a].
Proof. vm_compute. reflexivity. Qed.

Example hmac_sha256_fox :
  SHA256.hmac
    (map Byte.to_N (list_byte_of_string "key"))
    (map Byte.to_N
         (list_byte_of_string "The quick brown fox jumps over the lazy dog"))
  = [0xf7; 0xbc; 0x83; 0xf4; 0x30; 0x53; 0x84; 0x24; 0xb1; 0x32; 0x98; 0xe6;
     0xaa; 0x6f; 0xb1; 0x43; 0xef; 0x4d; 0x59; 0xa1; 0x49; 0x46; 0x17; 0x59;
     0x97; 0x47; 0x9d; 0xbc; 0x2d; 0x1a; 0x3c; 0xd8].
Proof. vm_compute. reflexivity. Qed.

Example fernet_generate_vector :
  outcome
    (f <- Fernet.new
            (list_byte_of_string
               "cw_0x689RpI-jtRR7oE8h_eQsKImvJapLeSbXpwF4e4=") ;;
     Fernet.encrypt_from_parts
       f (list_byte_of_string "hello") 499162800
       (map (fun i => byte_of_N (N.of_nat i)) (seq 0 16)))
    sample_world
  = inr (list_byte_of_string
           "gAAAAAAdwJ6wAAECAwQFBgcICQoLDA0ODy021cpGVWKZ_eEwCGM4BLLF_5CV9dOPmrhuVUPgJobwOz7JcbmrR64jVmpU4IwqDA==").
Proof. vm_compute. reflexivity. Qed.

(** ** [strip] *)

Lemma lstrip_head s :
  lstrip s = [] \/ exists c t, lstrip s = c :: t /\ py_isspace c = false.
Proof.
  induction s as [|c s IH]; [by left|].
  cbn [lstrip]. destruct (py_isspace c) eqn:E; [done|].
  right. by exists c, s.
Qed.

Lemma lstrip_nil_iff s : lstrip s = [] <-> forallb py_isspace s = true.
Proof.
  induction s as [|c s IH]; [done|].
  cbn [lstrip forallb]. destruct (py_isspace c); simpl; [done|].
  split; discriminate.
Qed.

Lemma forallb_rev {A} (p : A -> bool) l : forallb p (rev l) = forallb p l.
Proof.
  induction l as [|x l IH]; [done|].
  cbn [rev forallb]. rewrite forallb_app, IH. simpl.
  rewrite andb_true_r. apply andb_comm.
Qed.

Lemma rev_nil_iff {A} (l : list A) : rev l = [] <-> l = [].
Proof.
  split; [|by intros ->]. intros H. apply (f_equal (@rev A)) in H.
  by rewrite rev_involutive in H.
Qed.

Lemma strip_nil_iff s : strip s = [] <-> forallb py_isspace s = true.
Proof.
  unfold strip, rstrip. rewrite rev_nil_iff, lstrip_nil_iff, forallb_rev.
  destruct (lstrip_head s) as [E|(c & t & E & Hc)].
  - rewrite E. simpl. by rewrite <- lstrip_nil_iff.
  - rewrite E. cbn [forallb]. rewrite Hc. simpl.
    assert (lstrip s <> []) as Hne by (rewrite E; discriminate).
    rewrite <- lstrip_nil_iff. split; [discriminate|done].
Qed.

(** What the widget hands to [strip] ends in Tk's newline, which is
    whitespace: it is blank exactly when the display is. *)
Lemma strip_with_newline_nil s : strip s = [] -> strip (s ++ [10]) = [].
Proof.
  rewrite !strip_nil_iff, forallb_app. intros ->. reflexivity.
Qed.

(** ** What [encrypt_text] computes *)

Lemma urandom_length e off n : length (drawn e off n) = n.
Proof. unfold drawn. by rewrite length_map, length_seq. Qed.

Ltac mred_crypto :=
  cbv beta iota zeta delta
    [encrypt_text Fernet.generate_key Fernet.new Fernet.encrypt
     Fernet.encrypt_from_parts os_urandom str_encode bytes_decode
     bind ret raise try_except with_app emit ask lift_opt
     Text_get Text_delete Text_insert time_time
     messagebox_showerror
     after outcome logged set_contents contents
     app env log threads API_KEY selected_file text_raw
     text_transcripcion text_encriptado progress dialog disk service
     entropy entropy_pos clock fst snd advance drawn].

Lemma encrypt_text_computes w text data ts :
  utf8_encode text = Some data ->
  Fernet.timestamp (clock (env w)) = Some ts ->
  encrypt_text text w
  = (inr (latin1_decode
            (Fernet.token (fernet_of (env w)) data ts (drawn (env w) 32 16))),
     mkWorld (app w) (advance 48 (env w)) (log w) (threads w)).
Proof.
  intros Hd Ht. open_world w. mred_crypto.
  rewrite urlsafe_b64decode_encode.
  rewrite length_map, length_seq. cbn [Nat.eqb].
  rewrite Hd, Ht.
  rewrite utf8_decode_ascii by apply urlsafe_b64encode_ascii.
  unfold fernet_of, drawn. cbn [entropy entropy_pos].
  rewrite Nat.add_0_r, <- Nat.add_assoc. reflexivity.
Qed.

Lemma encrypt_text_unencodable w text :
  utf8_encode text = None ->
  encrypt_text text w
  = (inl (mkExc "UnicodeEncodeError" (py "surrogates not allowed")),
     mkWorld (app w) (advance 32 (env w)) (log w) (threads w)).
Proof.
  intros Hd. open_world w. mred_crypto.
  rewrite urlsafe_b64decode_encode.
  rewrite length_map, length_seq. cbn [Nat.eqb].
  by rewrite Hd.
Qed.

(** ** The file picker *)

Lemma latin1_decode_length bs : length (latin1_decode bs) = length bs.
Proof. apply length_map. Qed.

Lemma latin1_encode_decode bs : latin1_encode (latin1_decode bs) = Some bs.
Proof.
  induction bs as [|b bs IH]; [done|].
  simpl. by rewrite Byte.of_to_N, IH.
Qed.

Lemma latin1_decode_inj bs1 bs2 :
  latin1_decode bs1 = latin1_decode bs2 -> bs1 = bs2.
Proof.
  intros H. apply (f_equal latin1_encode) in H.
  rewrite !latin1_encode_decode in H. congruence.
Qed.

Lemma latin1_decode_lookup bs (i : nat) :
  latin1_decode bs !! i = Byte.to_N <$> bs !! i.
Proof. apply list_lookup_fmap. Qed.

Lemma seleccionar_archivo_selected w raw :
  truthy (dialog (env w)) = true ->
  disk (env w) (dialog (env w)) = inr raw ->
  seleccionar_archivo w =
    (inr tt,
     mkWorld (set_contents W_raw (latin1_decode (take 3000 raw))
                (set_selected_file (Some (dialog (env w))) (app w)))
             (env w)
             (log w ++ [AskOpenFilename (py "Seleccionar audio");
                        OpenFile (dialog (env w));
                        ShowInfo (py "Archivo cargado")
                          (py "Archivo cargado:" ++ [10] ++ dialog (env w)
                             ++ [10; 10] ++ py "Vista RAW mostrada arriba.")])
             (threads w)).
Proof.
  intros Ht Hd. open_world w.
  unfold seleccionar_archivo. mred. rewrite Ht. mred. rewrite Hd. mred.
  by rewrite <- !app_assoc.
Qed.

(** C2: after a file of content [raw] is picked, the raw view shows
    the first [min (length raw) 3000] bytes, one character per byte: the
    character at position [i] is the code point numbered by byte [i], the
    shown string encodes back to exactly that prefix, and two different
    prefixes never show the same string. *)
Theorem raw_preview_is_prefix_bytewise (w : World) (raw : bytes) :
  truthy (dialog (env w)) = true ->
  disk (env w) (dialog (env w)) = inr raw ->
  let shown := text_raw (app (after seleccionar_archivo w)) in
  outcome seleccionar_archivo w = inr tt /\
  selected_file (app (after seleccionar_archivo w)) = Some (dialog (env w)) /\
  shown = latin1_decode (take 3000 raw) /\
  length shown = Nat.min (length raw) 3000 /\
  (forall i : nat, (i < Nat.min (length raw) 3000)%nat ->
     shown !! i = Byte.to_N <$> raw !! i) /\
  latin1_encode shown = Some (take 3000 raw) /\
  (forall other : bytes, latin1_decode other = shown -> other = take 3000 raw).
Proof.
  intros Ht Hd shown. subst shown. unfold after, outcome.
  rewrite (seleccionar_archivo_selected w raw Ht Hd). simpl.
  repeat split.
  - rewrite latin1_decode_length, length_take. lia.
  - intros i Hi. rewrite latin1_decode_lookup, lookup_take_lt by lia. done.
  - apply latin1_encode_decode.
  - intros other. apply latin1_decode_inj.
Qed.

Lemma raw_preview_is_prefix_bytewise_witness :
  let shown := text_raw (app (after seleccionar_archivo sample_world)) in
  outcome seleccionar_archivo sample_world = inr tt /\
  selected_file (app (after seleccionar_archivo sample_world))
    = Some (dialog (env sample_world)) /\
  shown = latin1_decode (take 3000 sample_wav) /\
  length shown = Nat.min (length sample_wav) 3000 /\
  (forall i : nat, (i < Nat.min (length sample_wav) 3000)%nat ->
     shown !! i = Byte.to_N <$> sample_wav !! i) /\
  latin1_encode shown = Some (take 3000 sample_wav) /\
  (forall other : bytes, latin1_decode other = shown ->
     other = take 3000 sample_wav).
Proof.
  exact (raw_preview_is_prefix_bytewise sample_world sample_wav
           eq_refl eq_refl).
Defined.

(** The scenario of the specification: ten zero bytes show as ten
    characters, each the code point 0. *)
Example raw_preview_sample_wav :
  text_raw (app (after seleccionar_archivo sample_world)) = repeat 0 10.
Proof. reflexivity. Qed.

(** C7: when the dialog is cancelled the handler returns with the
    selected file, every display, the progress bar and the pending
    workers as they were; the dialog itself is all that was shown. *)
Theorem seleccionar_archivo_cancelled (w : World) :
  dialog (env w) = [] ->
  seleccionar_archivo w
    = (inr tt, logged w [AskOpenFilename (py "Seleccionar audio")]) /\
  app (after seleccionar_archivo w) = app w /\
  existsb is_message
    (drop (length (log w)) (log (after seleccionar_archivo w))) = false.
Proof.
  intros Hd.
  assert (seleccionar_archivo w
          = (inr tt, logged w [AskOpenFilename (py "Seleccionar audio")])) as E.
  { open_world w. unfold seleccionar_archivo. mred. by rewrite Hd. }
  unfold after. rewrite E. simpl. repeat split.
  by rewrite drop_app_length.
Qed.

Lemma seleccionar_archivo_cancelled_witness :
  seleccionar_archivo sample_cancelled
    = (inr tt,
       logged sample_cancelled [AskOpenFilename (py "Seleccionar audio")]) /\
  app (after seleccionar_archivo sample_cancelled) = app sample_cancelled /\
  existsb is_message
    (drop (length (log sample_cancelled))
          (log (after seleccionar_archivo sample_cancelled))) = false.
Proof. exact (seleccionar_archivo_cancelled sample_cancelled eq_refl). Defined.

(** ** The transcription action *)

(** C4: with no file selected, [transcribir] shows the "select a
    file first" error and does nothing else: no request goes to the
    network, no worker is started, no widget and no global changes, the
    progress bar is not started. *)
Theorem transcribir_without_file (w : World) :
  selected_file (app w) = None ->
  transcribir w = (inr (Some (py "ok")), logged w [select_first]) /\
  app (after transcribir w) = app w /\
  threads (after transcribir w) = threads w /\
  progress (app (after transcribir w)) = progress (app w) /\
  existsb is_request (log (after transcribir w)) = existsb is_request (log w) /\
  ~ In ThreadStart (drop (length (log w)) (log (after transcribir w))).
Proof.
  intros Hs.
  assert (transcribir w = (inr (Some (py "ok")), logged w [select_first])) as E.
  { open_world w. subst. unfold transcribir. mred. done. }
  unfold after. rewrite E. simpl. repeat split.
  - rewrite existsb_app. simpl. by rewrite orb_false_r.
  - rewrite drop_app_length. simpl. intros [H|[]]. discriminate H.
Qed.

Lemma transcribir_without_file_witness :
  transcribir sample_world
    = (inr (Some (py "ok")), logged sample_world [select_first]) /\
  app (after transcribir sample_world) = app sample_world /\
  threads (after transcribir sample_world) = threads sample_world /\
  progress (app (after transcribir sample_world))
    = progress (app sample_world) /\
  existsb is_request (log (after transcribir sample_world))
    = existsb is_request (log sample_world) /\
  ~ In ThreadStart (drop (length (log sample_world))
                         (log (after transcribir sample_world))).
Proof. exact (transcribir_without_file sample_world eq_refl). Defined.

(** With a file selected the handler only starts a worker. *)
Lemma transcribir_with_file w :
  truthy_opt (selected_file (app w)) = true ->
  transcribir w
    = (inr None, mkWorld (app w) (env w) (log w ++ [ThreadStart])
                         (S (threads w))).
Proof.
  intros Hs. open_world w. unfold transcribir. mred. rewrite Hs. by mred.
Qed.

(** The worker always returns, whatever the disk and the service
    answer, and it leaves the progress bar stopped. *)
Lemma run_returns_and_stops w :
  outcome run w = inr tt /\ progress (app (after run w)) = false.
Proof.
  open_world w. unfold run. mred.
  match goal with |- context [match ?o with Some _ => _ | None => _ end] =>
    destruct o as [path|] end; mred; [|done].
  match goal with |- context [disk0 ?p] => destruct (disk0 p) as [e|audio] end;
    mred; [done|].
  match goal with |- context [service0 ?a ?b ?c] =>
    destruct (service0 a b c) as [e|text] end; by mred.
Qed.

Lemma run_service_fails w path audio e :
  selected_file (app w) = Some path ->
  disk (env w) path = inr audio ->
  service (env w) model_name path audio = inl e ->
  run w =
    (inr tt,
     mkWorld (set_progress false (app w)) (env w)
        (log w ++ [OpenFile path; TranscriptionRequest model_name path;
                   ShowError (py "Error") (exc_str e)])
        (threads w)).
Proof.
  intros Hs Hd Hv. open_world w. subst. unfold run. mred.
  rewrite Hd. mred. unfold model_name in Hv. rewrite Hv. mred.
  by rewrite <- !app_assoc.
Qed.

Lemma run_service_answers w path audio text :
  selected_file (app w) = Some path ->
  disk (env w) path = inr audio ->
  service (env w) model_name path audio = inr text ->
  run w =
    (inr tt,
     mkWorld (set_progress false (set_contents W_transcripcion text (app w)))
        (env w)
        (log w ++ [OpenFile path; TranscriptionRequest model_name path])
        (threads w)).
Proof.
  intros Hs Hd Hv. open_world w. subst. unfold run. mred.
  rewrite Hd. mred. unfold model_name in Hv. rewrite Hv. mred.
  by rewrite <- !app_assoc.
Qed.

Lemma run_open_fails w path e :
  selected_file (app w) = Some path ->
  disk (env w) path = inl e ->
  run w =
    (inr tt,
     mkWorld (set_progress false (app w)) (env w)
        (log w ++ [OpenFile path; ShowError (py "Error") (exc_str e)])
        (threads w)).
Proof.
  intros Hs Hd. open_world w. subst. unfold run. mred.
  rewrite Hd. mred. by rewrite <- !app_assoc.
Qed.

(** C3: when the call to the service raises [e], the worker shows
    [str(e)] in an error box, leaves the transcription display (and every
    other display and the selected file) as it was, and returns with the
    progress bar stopped; and on every path, the successful one
    included, the worker returns with the progress bar stopped. *)
Theorem run_surfaces_service_error (w : World) (path : pystr) (audio : bytes)
        (e : PyExc) :
  selected_file (app w) = Some path ->
  disk (env w) path = inr audio ->
  service (env w) model_name path audio = inl e ->
  outcome run w = inr tt /\
  log (after run w)
    = log w ++ [OpenFile path; TranscriptionRequest model_name path;
                ShowError (py "Error") (exc_str e)] /\
  text_transcripcion (app (after run w)) = text_transcripcion (app w) /\
  app (after run w) = set_progress false (app w) /\
  progress (app (after run w)) = false /\
  (forall w' : World,
     outcome run w' = inr tt /\ progress (app (after run w')) = false).
Proof.
  intros Hs Hd Hv. unfold after, outcome.
  rewrite (run_service_fails w path audio e Hs Hd Hv). simpl.
  repeat split; apply run_returns_and_stops.
Qed.

Lemma run_surfaces_service_error_witness :
  outcome run sample_selected = inr tt /\
  log (after run sample_selected)
    = log sample_selected
      ++ [OpenFile (py "sample.wav");
          TranscriptionRequest model_name (py "sample.wav");
          ShowError (py "Error") (py "rate limit exceeded")] /\
  text_transcripcion (app (after run sample_selected))
    = text_transcripcion (app sample_selected) /\
  app (after run sample_selected) = set_progress false (app sample_selected) /\
  progress (app (after run sample_selected)) = false /\
  (forall w' : World,
     outcome run w' = inr tt /\ progress (app (after run w')) = false).
Proof.
  exact (run_surfaces_service_error sample_selected (py "sample.wav")
           sample_wav (mkExc "RateLimitError" (py "rate limit exceeded"))
           eq_refl eq_refl eq_refl).
Defined.

(** C6: when the service answers [text], the transcription display
    holds exactly [text] afterwards, whatever it held before; reading the
    widget back gives [text] and Tk's final newline. *)
Theorem run_displays_text_verbatim (w : World) (path : pystr) (audio : bytes)
        (text : pystr) :
  selected_file (app w) = Some path ->
  disk (env w) path = inr audio ->
  service (env w) model_name path audio = inr text ->
  outcome run w = inr tt /\
  text_transcripcion (app (after run w)) = text /\
  outcome (Text_get W_transcripcion) (after run w) = inr (text ++ [10]) /\
  existsb is_message (drop (length (log w)) (log (after run w))) = false.
Proof.
  intros Hs Hd Hv. unfold after, outcome.
  rewrite (run_service_answers w path audio text Hs Hd Hv). simpl.
  repeat split. by rewrite drop_app_length.
Qed.

Lemma run_displays_text_verbatim_witness :
  outcome run sample_answering = inr tt /\
  text_transcripcion (app (after run sample_answering)) = py "hello world" /\
  outcome (Text_get W_transcripcion) (after run sample_answering)
    = inr (py "hello world" ++ [10]) /\
  existsb is_message
    (drop (length (log sample_answering)) (log (after run sample_answering)))
    = false.
Proof.
  exact (run_displays_text_verbatim sample_answering (py "sample.wav")
           sample_wav (py "hello world") eq_refl eq_refl eq_refl).
Defined.

(** C9: the worker never lets an exception escape; when opening
    the selected file raises [e], no request is sent, [str(e)] is shown
    in the error box, the transcription display is as it was and the
    progress bar is stopped. *)
Theorem run_recovers_when_open_fails (w : World) (path : pystr) (e : PyExc) :
  selected_file (app w) = Some path ->
  disk (env w) path = inl e ->
  (forall w' : World, outcome run w' = inr tt) /\
  log (after run w)
    = log w ++ [OpenFile path; ShowError (py "Error") (exc_str e)] /\
  text_transcripcion (app (after run w)) = text_transcripcion (app w) /\
  app (after run w) = set_progress false (app w) /\
  progress (app (after run w)) = false.
Proof.
  intros Hs Hd. unfold after.
  rewrite (run_open_fails w path e Hs Hd). simpl.
  repeat split; apply run_returns_and_stops.
Qed.

Lemma run_recovers_when_open_fails_witness :
  (forall w' : World, outcome run w' = inr tt) /\
  log (after run sample_deleted)
    = log sample_deleted
      ++ [OpenFile (py "gone.mp3");
          ShowError (py "Error") (py "[Errno 2] No such file or directory")] /\
  text_transcripcion (app (after run sample_deleted))
    = text_transcripcion (app sample_deleted) /\
  app (after run sample_deleted) = set_progress false (app sample_deleted) /\
  progress (app (after run sample_deleted)) = false.
Proof.
  exact (run_recovers_when_open_fails sample_deleted (py "gone.mp3")
           (mkExc "FileNotFoundError"
                  (py "[Errno 2] No such file or directory"))
           eq_refl eq_refl).
Defined.

(** ** Start-up *)

(** What [os.getenv] sees after [load_dotenv()]: the value of the process
    environment, and the value of the [.env] file where the process
    environment has none. *)
Lemma getenv_after_load_dotenv dotenv environ name :
  os_getenv (load_dotenv dotenv environ) name
  = match environ !! name with
    | Some v => Some v
    | None => dotenv !! name
    end.
Proof.
  unfold os_getenv, load_dotenv. rewrite lookup_union.
  by destruct (environ !! name), (dotenv !! name).
Qed.

Lemma getenv_absent_iff dotenv environ name :
  os_getenv (load_dotenv dotenv environ) name = None
  <-> environ !! name = None /\ dotenv !! name = None.
Proof.
  rewrite getenv_after_load_dotenv.
  destruct (environ !! name) as [v|].
  - split; [discriminate|]. intros [H _]. discriminate H.
  - split; [done|]. by intros [_ H].
Qed.

Lemma startup_falsy dotenv environ :
  truthy_opt (os_getenv (load_dotenv dotenv environ) credential) = false ->
  startup dotenv environ = inl no_api_key.
Proof. unfold startup, credential. by intros ->. Qed.

Lemma startup_runs dotenv environ a :
  startup dotenv environ = inr a ->
  os_getenv (load_dotenv dotenv environ) credential = Some (API_KEY a)
  /\ API_KEY a <> [].
Proof.
  unfold startup, credential.
  destruct (os_getenv _ _) as [k|]; simpl; [|discriminate].
  destruct k; simpl; [discriminate|].
  intros [= <-]. simpl. split; [done|discriminate].
Qed.

(** C8: when [OPENAI_API_KEY] is absent from the environment that
    [os.getenv] reads (the process environment completed by the [.env]
    file), start-up ends with the exception "No se encontró la API KEY en
    .env" and no application comes to exist; and whenever start-up does
    produce the application, the credential it holds is the non-empty
    value of that variable. *)
Theorem startup_aborts_without_credential (dotenv environ : gmap pystr pystr) :
  os_getenv (load_dotenv dotenv environ) credential = None ->
  startup dotenv environ = inl no_api_key /\
  (forall a : App, startup dotenv environ <> inr a) /\
  (forall (dotenv' environ' : gmap pystr pystr) (a : App),
     startup dotenv' environ' = inr a ->
     os_getenv (load_dotenv dotenv' environ') credential = Some (API_KEY a)
     /\ API_KEY a <> []).
Proof.
  intros Habs.
  assert (startup dotenv environ = inl no_api_key) as E.
  { apply startup_falsy. by rewrite Habs. }
  split; [done|]. split.
  - intros a. rewrite E. discriminate.
  - apply startup_runs.
Qed.

Lemma startup_aborts_without_credential_witness :
  startup (∅ : gmap pystr pystr) (∅ : gmap pystr pystr) = inl no_api_key /\
  (forall a : App, startup (∅ : gmap pystr pystr) (∅ : gmap pystr pystr)
                   <> inr a) /\
  (forall (dotenv' environ' : gmap pystr pystr) (a : App),
     startup dotenv' environ' = inr a ->
     os_getenv (load_dotenv dotenv' environ') credential = Some (API_KEY a)
     /\ API_KEY a <> []).
Proof. exact (startup_aborts_without_credential ∅ ∅ eq_refl). Defined.

(** C10: when [OPENAI_API_KEY] is set to the empty string, start-up
    ends with the same exception, and so with the same outcome as any
    start-up at which the variable is absent. *)
Theorem startup_aborts_on_empty_credential (dotenv environ : gmap pystr pystr) :
  os_getenv (load_dotenv dotenv environ) credential = Some [] ->
  startup dotenv environ = inl no_api_key /\
  (forall dotenv' environ' : gmap pystr pystr,
     os_getenv (load_dotenv dotenv' environ') credential = None ->
     startup dotenv environ = startup dotenv' environ').
Proof.
  intros Hemp.
  assert (startup dotenv environ = inl no_api_key) as E.
  { apply startup_falsy. by rewrite Hemp. }
  split; [done|]. intros dotenv' environ' Habs. rewrite E. symmetry.
  apply startup_falsy. by rewrite Habs.
Qed.

(** An empty value in the process environment wins over the [.env]
    file, which is not consulted for a name already set. *)
Lemma empty_environ_shadows_dotenv dotenv environ :
  environ !! credential = Some [] ->
  os_getenv (load_dotenv dotenv environ) credential = Some [].
Proof. intros H. by rewrite getenv_after_load_dotenv, H. Qed.

Lemma startup_aborts_on_empty_credential_witness :
  let dotenv : gmap pystr pystr := {[ credential := py "sk-from-dotenv" ]} in
  let environ : gmap pystr pystr := {[ credential := [] ]} in
  startup dotenv environ = inl no_api_key /\
  (forall dotenv' environ' : gmap pystr pystr,
     os_getenv (load_dotenv dotenv' environ') credential = None ->
     startup dotenv environ = startup dotenv' environ').
Proof.
  exact (startup_aborts_on_empty_credential
           {[ credential := py "sk-from-dotenv" ]} {[ credential := [] ]}
           eq_refl).
Defined.

(** With the credential in the [.env] file alone, the application starts. *)
Example startup_with_dotenv_only :
  startup {[ credential := py "sk-from-dotenv" ]} ∅
  = inr (mkApp (py "sk-from-dotenv") None [] [] [] false).
Proof.
  unfold startup. rewrite getenv_after_load_dotenv, lookup_empty.
  unfold credential. by rewrite lookup_singleton_eq.
Qed.

(** ** The obfuscation action *)

(** C5: when the transcription display is empty once trimmed,
    [encriptar] shows the "nothing to encrypt" error and does nothing
    else: the output display, every other widget and global, the entropy
    source (nothing is encrypted) and the pending workers are as before. *)
Theorem encriptar_rejects_blank_text (w : World) :
  strip (text_transcripcion (app w)) = [] ->
  encriptar w = (inr (Some (py "ok")), logged w [nothing_to_encrypt]) /\
  text_encriptado (app (after encriptar w)) = text_encriptado (app w) /\
  app (after encriptar w) = app w /\
  env (after encriptar w) = env w /\
  threads (after encriptar w) = threads w.
Proof.
  intros Hb. apply strip_with_newline_nil in Hb.
  assert (encriptar w
          = (inr (Some (py "ok")), logged w [nothing_to_encrypt])) as E.
  { open_world w. unfold encriptar. mred. by rewrite Hb. }
  unfold after. by rewrite E.
Qed.

Lemma encriptar_rejects_blank_text_witness :
  encriptar sample_blank
    = (inr (Some (py "ok")), logged sample_blank [nothing_to_encrypt]) /\
  text_encriptado (app (after encriptar sample_blank))
    = text_encriptado (app sample_blank) /\
  app (after encriptar sample_blank) = app sample_blank /\
  env (after encriptar sample_blank) = env sample_blank /\
  threads (after encriptar sample_blank) = threads sample_blank.
Proof. exact (encriptar_rejects_blank_text sample_blank eq_refl). Defined.





Lemma token_at_least_100 f data ts iv :
  length ts = 8%nat -> length iv = 16%nat ->
  (100 <= length (latin1_decode (Fernet.token f data ts iv)))%nat.
Proof.
  intros Hts Hiv. rewrite latin1_decode_length, token_length by done.
  pose proof (Nat.div_mod_eq (57 + 16 * (length data / 16 + 1) + 2) 3).
  pose proof (Nat.mod_upper_bound (57 + 16 * (length data / 16 + 1) + 2) 3).
  lia.
Qed.




(** The sample world holds "hello world", and the key it is about to
    draw is in none of its globals and displays. *)
Example sample_key_is_fresh :
  contenido_of sample_world = py "hello world"
  /\ ~ In (latin1_decode (key_of (env sample_world))) (held (app sample_world)).
Proof.
  split; [by vm_compute|]. vm_compute. intros H.
  repeat (destruct H as [H|H]; [discriminate H|]). exact H.
Qed.

(** Two clicks on the same text, the second in the world the first one
    left: the entropy source moved on, and the ciphertext changed. *)
Example encriptar_twice_sample :
  text_encriptado (app (after encriptar sample_world))
  <> text_encriptado (app (after encriptar (after encriptar sample_world))).
Proof. vm_compute. discriminate. Qed.


(** * More of the program *)

(** ** The handlers on every world *)

Lemma added_logged {A} (m : M A) w r a' e' evs t' :
  m w = (r, mkWorld a' e' (log w ++ evs) t') -> added m w = evs.
Proof.
  intros E. unfold added, after. rewrite E. cbn [snd log].
  by rewrite drop_app_length.
Qed.

Lemma seleccionar_archivo_unreadable w e :
  truthy (dialog (env w)) = true ->
  disk (env w) (dialog (env w)) = inl e ->
  seleccionar_archivo w =
    (inl e,
     mkWorld (set_selected_file (Some (dialog (env w))) (app w)) (env w)
             (log w ++ [AskOpenFilename (py "Seleccionar audio");
                        OpenFile (dialog (env w))])
             (threads w)).
Proof.
  intros Ht Hd. open_world w.
  unfold seleccionar_archivo. mred. rewrite Ht. mred. rewrite Hd. mred.
  by rewrite <- !app_assoc.
Qed.

Lemma seleccionar_archivo_dismissed w :
  truthy (dialog (env w)) = false ->
  seleccionar_archivo w
  = (inr tt, logged w [AskOpenFilename (py "Seleccionar audio")]).
Proof.
  intros Ht. open_world w. unfold seleccionar_archivo. mred. by rewrite Ht.
Qed.

Lemma transcribir_refuses w :
  truthy_opt (selected_file (app w)) = false ->
  transcribir w = (inr (Some (py "ok")), logged w [select_first]).
Proof.
  intros Hs. open_world w. unfold transcribir. mred. rewrite Hs. by mred.
Qed.

Lemma run_without_selection w :
  selected_file (app w) = None ->
  run w =
    (inr tt,
     mkWorld (set_progress false (app w)) (env w)
        (log w ++ [ShowError (py "Error")
                     (py "expected str, bytes or os.PathLike object, not NoneType")])
        (threads w)).
Proof.
  intros Hs. open_world w. subst. unfold run. by mred.
Qed.

(** X1: when reading the chosen file raises, the handler lets the
    exception out after the selection was already replaced by the new
    path: the raw view and the other displays keep what they held, no
    confirmation is shown, and a later [transcribir] starts a worker for
    the unreadable file. *)
Theorem seleccionar_archivo_read_fails (w : World) (e : PyExc) :
  truthy (dialog (env w)) = true ->
  disk (env w) (dialog (env w)) = inl e ->
  outcome seleccionar_archivo w = inl e /\
  selected_file (app (after seleccionar_archivo w)) = Some (dialog (env w)) /\
  app (after seleccionar_archivo w)
    = set_selected_file (Some (dialog (env w))) (app w) /\
  text_raw (app (after seleccionar_archivo w)) = text_raw (app w) /\
  existsb is_message (added seleccionar_archivo w) = false /\
  outcome transcribir (after seleccionar_archivo w) = inr None /\
  threads (after transcribir (after seleccionar_archivo w)) = S (threads w).
Proof.
  intros Ht Hd.
  pose proof (seleccionar_archivo_unreadable w e Ht Hd) as E.
  rewrite (added_logged _ _ _ _ _ _ _ E).
  unfold after, outcome. rewrite E. cbn [fst snd app].
  rewrite transcribir_with_file by (by destruct (app w)).
  repeat split.
Qed.

Lemma seleccionar_archivo_read_fails_witness :
  outcome seleccionar_archivo sample_unreadable
    = inl (mkExc "FileNotFoundError"
                 (py "[Errno 2] No such file or directory")) /\
  selected_file (app (after seleccionar_archivo sample_unreadable))
    = Some (dialog (env sample_unreadable)) /\
  app (after seleccionar_archivo sample_unreadable)
    = set_selected_file (Some (dialog (env sample_unreadable)))
                        (app sample_unreadable) /\
  text_raw (app (after seleccionar_archivo sample_unreadable))
    = text_raw (app sample_unreadable) /\
  existsb is_message (added seleccionar_archivo sample_unreadable) = false /\
  outcome transcribir (after seleccionar_archivo sample_unreadable)
    = inr None /\
  threads (after transcribir (after seleccionar_archivo sample_unreadable))
    = S (threads sample_unreadable).
Proof.
  exact (seleccionar_archivo_read_fails sample_unreadable
           (mkExc "FileNotFoundError"
                  (py "[Errno 2] No such file or directory"))
           eq_refl eq_refl).
Defined.

(** X2: picking a file touches the selection and the raw view
    only: a transcription and a ciphertext made from an earlier file
    stay on display, the progress bar and the pending workers are as
    before, nothing goes to the network, and the one box shown is the
    confirmation, whose text carries the path. *)
Theorem seleccionar_archivo_keeps_other_displays (w : World) (raw : bytes) :
  truthy (dialog (env w)) = true ->
  disk (env w) (dialog (env w)) = inr raw ->
  text_transcripcion (app (after seleccionar_archivo w))
    = text_transcripcion (app w) /\
  text_encriptado (app (after seleccionar_archivo w))
    = text_encriptado (app w) /\
  progress (app (after seleccionar_archivo w)) = progress (app w) /\
  API_KEY (app (after seleccionar_archivo w)) = API_KEY (app w) /\
  threads (after seleccionar_archivo w) = threads w /\
  env (after seleccionar_archivo w) = env w /\
  existsb is_request (added seleccionar_archivo w) = false /\
  existsb is_thread_start (added seleccionar_archivo w) = false /\
  (exists before behind : pystr,
     List.filter is_message (added seleccionar_archivo w)
     = [ShowInfo (py "Archivo cargado")
                 (before ++ dialog (env w) ++ behind)]).
Proof.
  intros Ht Hd.
  pose proof (seleccionar_archivo_selected w raw Ht Hd) as E.
  rewrite (added_logged _ _ _ _ _ _ _ E).
  unfold after. rewrite E. cbn [snd app env threads].
  repeat split.
  exists (py "Archivo cargado:" ++ [10]),
         ([10; 10] ++ py "Vista RAW mostrada arriba.").
  cbn [List.filter is_message]. by rewrite <- !app_assoc.
Qed.

Lemma seleccionar_archivo_keeps_other_displays_witness :
  text_transcripcion (app (after seleccionar_archivo sample_world))
    = text_transcripcion (app sample_world) /\
  text_encriptado (app (after seleccionar_archivo sample_world))
    = text_encriptado (app sample_world) /\
  progress (app (after seleccionar_archivo sample_world))
    = progress (app sample_world) /\
  API_KEY (app (after seleccionar_archivo sample_world))
    = API_KEY (app sample_world) /\
  threads (after seleccionar_archivo sample_world) = threads sample_world /\
  env (after seleccionar_archivo sample_world) = env sample_world /\
  existsb is_request (added seleccionar_archivo sample_world) = false /\
  existsb is_thread_start (added seleccionar_archivo sample_world) = false /\
  (exists before behind : pystr,
     List.filter is_message (added seleccionar_archivo sample_world)
     = [ShowInfo (py "Archivo cargado")
                 (before ++ dialog (env sample_world) ++ behind)]).
Proof.
  exact (seleccionar_archivo_keeps_other_displays sample_world sample_wav
           eq_refl eq_refl).
Defined.

(** ** Workers *)

(** X3: the worker reads the selection when it runs, not when the
    button was pressed: if another file is picked between the press and
    the worker's run, the request that goes out is for the file picked
    last, and its transcription is what the display shows. *)
Theorem worker_transcribes_current_selection (w : World) (raw : bytes)
        (text : pystr) :
  truthy_opt (selected_file (app w)) = true ->
  truthy (dialog (env w)) = true ->
  disk (env w) (dialog (env w)) = inr raw ->
  service (env w) model_name (dialog (env w)) raw = inr text ->
  exists w' : World,
    play [Press_transcribir; Press_seleccionar; Worker_runs] w = Some w' /\
    List.filter is_request (drop (length (log w)) (log w'))
      = [TranscriptionRequest model_name (dialog (env w))] /\
    text_transcripcion (app w') = text /\
    selected_file (app w') = Some (dialog (env w)) /\
    threads w' = threads w.
Proof.
  intros Hs Ht Hd Hv. cbn [play perform].
  eassert (after transcribir w = _) as ->.
  { unfold after. rewrite (transcribir_with_file w Hs). reflexivity. }
  eassert (after seleccionar_archivo _ = _) as ->.
  { unfold after. erewrite seleccionar_archivo_selected; [reflexivity|..].
    - exact Ht.
    - exact Hd. }
  cbn [threads app env log].
  eexists. split; [reflexivity|].
  unfold after. erewrite run_service_answers; [|reflexivity|exact Hd|exact Hv].
  cbn [snd log app threads]. rewrite <- !app_assoc, drop_app_length.
  repeat split.
Qed.

Lemma worker_transcribes_current_selection_witness :
  exists w' : World,
    play [Press_transcribir; Press_seleccionar; Worker_runs] sample_reselect
      = Some w' /\
    List.filter is_request (drop (length (log sample_reselect)) (log w'))
      = [TranscriptionRequest model_name (dialog (env sample_reselect))] /\
    text_transcripcion (app w') = py "text of " ++ py "other.mp3" /\
    selected_file (app w') = Some (dialog (env sample_reselect)) /\
    threads w' = threads sample_reselect.
Proof.
  exact (worker_transcribes_current_selection sample_reselect
           (list_byte_of_string "ID3") (py "text of " ++ py "other.mp3")
           eq_refl eq_refl eq_refl eq_refl).
Defined.

Lemma run_readable w path audio :
  selected_file (app w) = Some path ->
  disk (env w) path = inr audio ->
  exists a' tail,
    run w = (inr tt,
             mkWorld a' (env w)
               (log w ++ [OpenFile path; TranscriptionRequest model_name path]
                      ++ tail)
               (threads w))
    /\ selected_file a' = Some path
    /\ API_KEY a' = API_KEY (app w)
    /\ List.filter is_request tail = []
    /\ List.filter is_thread_start tail = [].
Proof.
  intros Hs Hd.
  destruct (service (env w) model_name path audio) as [e|text] eqn:Hv.
  - eexists _, _. rewrite (run_service_fails w path audio e Hs Hd Hv).
    split; [reflexivity|]. by destruct (app w).
  - exists (set_progress false (set_contents W_transcripcion text (app w))), [].
    rewrite (run_service_answers w path audio text Hs Hd Hv).
    split; [done|]. by destruct (app w).
Qed.

Lemma count_events_app p l1 l2 :
  count_events p (l1 ++ l2) = (count_events p l1 + count_events p l2)%nat.
Proof. unfold count_events. by rewrite List.filter_app, length_app. Qed.

Lemma play_app l1 l2 w0 w1 :
  play l1 w0 = Some w1 -> play (l1 ++ l2) w0 = play l2 w1.
Proof.
  revert w0. induction l1 as [|a l1 IH]; intros w0; cbn [play List.app].
  - by intros [= ->].
  - destruct (perform a w0); [apply IH|discriminate].
Qed.

Lemma count_repeat_start k :
  count_events is_thread_start (repeat ThreadStart k) = k
  /\ count_events is_request (repeat ThreadStart k) = 0%nat.
Proof.
  unfold count_events. induction k as [|j [IH1 IH2]]; [done|].
  cbn [repeat List.filter is_thread_start is_request length].
  split; [by rewrite IH1|done].
Qed.

Lemma presses_accumulate k w :
  truthy_opt (selected_file (app w)) = true ->
  play (repeat Press_transcribir k) w
  = Some (mkWorld (app w) (env w) (log w ++ repeat ThreadStart k)
                  (threads w + k)).
Proof.
  revert w. induction k as [|k IH]; intros w Hs.
  - cbn [repeat play]. destruct w. cbn. by rewrite app_nil_r, Nat.add_0_r.
  - cbn [repeat play perform]. unfold after.
    rewrite (transcribir_with_file w Hs). cbn [snd].
    rewrite IH by done. cbn [app env log threads].
    rewrite <- app_assoc. do 2 f_equal. lia.
Qed.

Lemma workers_request k : forall w path audio,
  selected_file (app w) = Some path ->
  disk (env w) path = inr audio ->
  exists w',
    play (repeat Worker_runs k) (mkWorld (app w) (env w) (log w) (threads w + k))
      = Some w'
    /\ threads w' = threads w
    /\ selected_file (app w') = Some path
    /\ env w' = env w
    /\ count_events is_request (log w')
       = (count_events is_request (log w) + k)%nat
    /\ count_events is_thread_start (log w')
       = count_events is_thread_start (log w).
Proof.
  induction k as [|k IH]; intros w path audio Hs Hd.
  - exists w. cbn [repeat play]. rewrite !Nat.add_0_r. by destruct w.
  - replace (threads w + S k)%nat with (S (threads w + k)) by lia.
    cbn [repeat play perform threads app env log].
    destruct (run_readable (mkWorld (app w) (env w) (log w) (threads w + k))
                path audio Hs Hd) as (a' & tail & E & Hs' & _ & Hr & Hth).
    cbn [app env log threads] in E. unfold after. rewrite E. cbn [snd].
    set (l' := log w ++ _).
    destruct (IH (mkWorld a' (env w) l' (threads w)) path audio Hs' Hd)
      as (w' & Hp & Ht & Hsel & He & Hc & Hc').
    cbn [app env log threads] in *. exists w'. rewrite Hp.
    repeat split; try done.
    + rewrite Hc. subst l'. rewrite !count_events_app.
      unfold count_events at 2 3. rewrite Hr.
      unfold model_name. cbn. lia.
    + rewrite Hc'. subst l'. rewrite !count_events_app.
      unfold count_events at 2 3. rewrite Hth. cbn. lia.
Qed.

(** X4: nothing holds back a second press while a transcription
    is under way: [k] presses of the button with a readable file
    selected start [k] workers, and when these have run, [k] requests
    for that file have gone to the service. *)
Theorem every_press_sends_a_request (k : nat) (w : World) (path : pystr)
        (audio : bytes) :
  selected_file (app w) = Some path ->
  truthy path = true ->
  disk (env w) path = inr audio ->
  play (repeat Press_transcribir k) w
    = Some (mkWorld (app w) (env w) (log w ++ repeat ThreadStart k)
                    (threads w + k)) /\
  exists w' : World,
    play (repeat Press_transcribir k ++ repeat Worker_runs k) w = Some w' /\
    threads w' = threads w /\
    count_events is_thread_start (log w')
      = (count_events is_thread_start (log w) + k)%nat /\
    count_events is_request (log w')
      = (count_events is_request (log w) + k)%nat.
Proof.
  intros Hs Hp Hd.
  assert (truthy_opt (selected_file (app w)) = true) as Hs'
    by (by rewrite Hs).
  split; [by apply presses_accumulate|].
  destruct (workers_request k
              (mkWorld (app w) (env w) (log w ++ repeat ThreadStart k)
                       (threads w))
              path audio Hs Hd) as (w' & Hplay & Ht & _ & _ & Hc & Hc').
  cbn [app env log threads] in *. exists w'.
  rewrite (play_app _ _ _ _ (presses_accumulate k w Hs')), Hplay.
  rewrite Hc, Hc', !count_events_app.
  destruct (count_repeat_start k) as [-> ->].
  repeat split; try done; lia.
Qed.

Lemma every_press_sends_a_request_witness :
  play (repeat Press_transcribir 3) sample_ready
    = Some (mkWorld (app sample_ready) (env sample_ready)
                    (log sample_ready ++ repeat ThreadStart 3)
                    (threads sample_ready + 3)) /\
  exists w' : World,
    play (repeat Press_transcribir 3 ++ repeat Worker_runs 3) sample_ready
      = Some w' /\
    threads w' = threads sample_ready /\
    count_events is_thread_start (log w')
      = (count_events is_thread_start (log sample_ready) + 3)%nat /\
    count_events is_request (log w')
      = (count_events is_request (log sample_ready) + 3)%nat.
Proof.
  exact (every_press_sends_a_request 3 sample_ready (py "sample.wav")
           sample_wav eq_refl eq_refl eq_refl).
Defined.

(** ** [encrypt_text] on every text *)

Lemma encrypt_text_overflows w text data :
  utf8_encode text = Some data ->
  Fernet.timestamp (clock (env w)) = None ->
  encrypt_text text w
  = (inl (Fernet.overflow_error (clock (env w))),
     mkWorld (app w) (advance 48 (env w)) (log w) (threads w)).
Proof.
  intros Hd Ht. open_world w. mred_crypto.
  rewrite urlsafe_b64decode_encode.
  rewrite length_map, length_seq. cbn [Nat.eqb].
  rewrite Hd, Ht. by rewrite <- Nat.add_assoc.
Qed.

Lemma timestamp_None_iff now :
  Fernet.timestamp now = None
  <-> (now < 0 \/ 18446744073709551616 <= now)%Z.
Proof.
  unfold Fernet.timestamp.
  destruct (0 <=? now)%Z eqn:E0;
    [apply Z.leb_le in E0|apply Z.leb_gt in E0];
    (destruct (now <? 18446744073709551616)%Z eqn:E;
     [apply Z.ltb_lt in E|apply Z.ltb_ge in E]); cbn [andb];
    (split; [intros H; try discriminate; lia|intros H; try done; lia]).
Qed.

Lemma overflow_error_type now :
  exc_type (Fernet.overflow_error now) = "OverflowError"%string.
Proof. reflexivity. Qed.

Lemma utf8_encode_char_None c :
  utf8_encode_char c = None <-> is_surrogate c = true \/ 0x110000 <= c.
Proof.
  unfold utf8_encode_char, is_surrogate.
  destruct (c <? 0x80) eqn:E1; [apply N.ltb_lt in E1|apply N.ltb_ge in E1].
  { split; [discriminate|]. intros [H|H]; [|lia].
    apply andb_prop in H as [H _]. apply N.leb_le in H. lia. }
  destruct (c <? 0x800) eqn:E2; [apply N.ltb_lt in E2|apply N.ltb_ge in E2].
  { split; [discriminate|]. intros [H|H]; [|lia].
    apply andb_prop in H as [H _]. apply N.leb_le in H. lia. }
  destruct ((0xD800 <=? c) && (c <? 0xE000)) eqn:E3; [by split; [left|]|].
  destruct (c <? 0x10000) eqn:E4; [apply N.ltb_lt in E4|apply N.ltb_ge in E4].
  { split; [discriminate|]. intros [H|H]; [discriminate|lia]. }
  destruct (c <? 0x110000) eqn:E5; [apply N.ltb_lt in E5|apply N.ltb_ge in E5].
  { split; [discriminate|]. intros [H|H]; [discriminate|lia]. }
  split; [by right|done].
Qed.

Lemma utf8_encode_None s :
  well_formed s ->
  utf8_encode s = None <-> Exists (fun c => is_surrogate c = true) s.
Proof.
  induction 1 as [|c s Hc Hs IH]; cbn [utf8_encode].
  - split; [discriminate|]. by intros H%Exists_nil.
  - rewrite Exists_cons, <- IH.
    destruct (utf8_encode_char c) as [b|] eqn:Eb.
    + destruct (utf8_encode s); [|by split; [right|]].
      split; [discriminate|]. intros [H|H]; [|discriminate].
      assert (utf8_encode_char c = None) as E
        by (apply utf8_encode_char_None; by left).
      congruence.
    + split; [|done]. intros _.
      apply utf8_encode_char_None in Eb as [H|H]; [by left|lia].
Qed.

Lemma encrypt_text_cases text w :
  (exists data ts,
     utf8_encode text = Some data
     /\ Fernet.timestamp (clock (env w)) = Some ts
     /\ encrypt_text text w
        = (inr (latin1_decode
                  (Fernet.token (fernet_of (env w)) data ts
                                (drawn (env w) 32 16))),
           mkWorld (app w) (advance 48 (env w)) (log w) (threads w)))
  \/ (exists data,
        utf8_encode text = Some data
        /\ Fernet.timestamp (clock (env w)) = None
        /\ encrypt_text text w
           = (inl (Fernet.overflow_error (clock (env w))),
              mkWorld (app w) (advance 48 (env w)) (log w) (threads w)))
  \/ (utf8_encode text = None
      /\ encrypt_text text w
         = (inl (mkExc "UnicodeEncodeError" (py "surrogates not allowed")),
            mkWorld (app w) (advance 32 (env w)) (log w) (threads w))).
Proof.
  destruct (utf8_encode text) as [data|] eqn:Hd.
  - destruct (Fernet.timestamp (clock (env w))) as [ts|] eqn:Ht.
    + left. exists data, ts. by rewrite (encrypt_text_computes w text data ts).
    + right. left. exists data.
      by rewrite (encrypt_text_overflows w text data).
  - right. right. by rewrite (encrypt_text_unencodable w text).
Qed.

(** X5: whatever the text and the clock, [encrypt_text] does not touch
    the application, the log or the pending workers, and its outcome is
    decided by the text and the clock alone.  It raises
    [UnicodeEncodeError] exactly when the text does not encode in UTF-8
    (for a well-formed [str]: when it holds a lone surrogate), after the
    32 bytes of the key were already drawn.  When the text encodes it
    raises [OverflowError] exactly when [int(time.time())] is negative
    or is 2^64 or more, with the message [int.to_bytes] gives for each,
    after all 48 bytes were drawn.  In the one remaining case, the text
    encodes and the clock is from 0 to below 2^64, it returns a token:
    the key it generated is always accepted by [Fernet(key)], and the
    token always decodes to a [str]. *)
Theorem encrypt_text_outcomes (text : pystr) (w : World) :
  app (after (encrypt_text text) w) = app w /\
  log (after (encrypt_text text) w) = log w /\
  threads (after (encrypt_text text) w) = threads w /\
  (utf8_encode text = None ->
     exists e, outcome (encrypt_text text) w = inl e
               /\ exc_type e = "UnicodeEncodeError"%string
               /\ env (after (encrypt_text text) w) = advance 32 (env w)) /\
  (is_Some (utf8_encode text) ->
   (clock (env w) < 0 \/ 18446744073709551616 <= clock (env w))%Z ->
     outcome (encrypt_text text) w
     = inl (mkExc "OverflowError"
              (if (clock (env w) <? 0)%Z
               then py "can't convert negative int to unsigned"
               else py "int too big to convert"))
     /\ env (after (encrypt_text text) w) = advance 48 (env w)) /\
  (is_Some (utf8_encode text) ->
   (0 <= clock (env w) < 18446744073709551616)%Z ->
     exists c, outcome (encrypt_text text) w = inr c
               /\ env (after (encrypt_text text) w) = advance 48 (env w)) /\
  (well_formed text ->
     utf8_encode text = None
     <-> Exists (fun c => is_surrogate c = true) text) /\
  (forall w2 : World,
     clock (env w2) = clock (env w) ->
     match outcome (encrypt_text text) w, outcome (encrypt_text text) w2 with
     | inl e, inl e2 => e = e2
     | inr _, inr _ => True
     | _, _ => False
     end).
Proof.
  assert (forall w2 : World,
     clock (env w2) = clock (env w) ->
     match outcome (encrypt_text text) w, outcome (encrypt_text text) w2 with
     | inl e, inl e2 => e = e2
     | inr _, inr _ => True
     | _, _ => False
     end) as Hsame.
  { intros w2 Hc. unfold outcome.
    destruct (encrypt_text_cases text w)
      as [(data & ts & Hd & Ht & E)|[(data & Hd & Ht & E)|(Hd & E)]];
      destruct (encrypt_text_cases text w2)
      as [(data2 & ts2 & Hd2 & Ht2 & E2)|[(data2 & Hd2 & Ht2 & E2)|(Hd2 & E2)]];
      rewrite E, E2; cbn [fst]; rewrite ?Hc in *;
      first [done | congruence]. }
  destruct (encrypt_text_cases text w)
    as [(data & ts & Hd & Ht & E)|[(data & Hd & Ht & E)|(Hd & E)]];
    unfold after, outcome in *; rewrite E in *; cbn [fst snd];
    (split_and!; [done|done|done|..| apply utf8_encode_None | exact Hsame]).
  - intros H. congruence.
  - intros _ Hge. apply timestamp_None_iff in Hge. congruence.
  - intros _ _. by eexists.
  - intros H. congruence.
  - intros _ _. done.
  - intros _ Hlt. apply timestamp_None_iff in Ht. lia.
  - intros _. by eexists.
  - intros [x Hx]. congruence.
  - intros [x Hx]. congruence.
Qed.

Lemma encrypt_text_outcomes_witness :
  exists e, outcome (encrypt_text [0xD83D]) sample_world = inl e
            /\ exc_type e = "UnicodeEncodeError"%string
            /\ env (after (encrypt_text [0xD83D]) sample_world)
               = advance 32 (env sample_world).
Proof.
  exact (proj1 (proj2 (proj2 (proj2
           (encrypt_text_outcomes [0xD83D] sample_world)))) eq_refl).
Defined.

(** ** The shape of a ciphertext *)

Lemma b64_char_in n : In (b64_char n) (b64_pad :: b64_alphabet).
Proof.
  unfold b64_char.
  destruct (nth_in_or_default (N.to_nat n) b64_alphabet b64_pad) as [H| ->].
  - by right.
  - by left.
Qed.

Lemma urlsafe_b64encode_alphabet bs :
  Forall (fun b => In b (b64_pad :: b64_alphabet)) (urlsafe_b64encode bs).
Proof.
  assert (In b64_pad (b64_pad :: b64_alphabet)) as Hp by (by left).
  induction bs as [|x|x y|x y z l IH] using list_ind3;
    cbn [urlsafe_b64encode];
    repeat (apply List.Forall_cons;
            [first [apply b64_char_in | exact Hp]|]);
    first [apply List.Forall_nil | exact IH].
Qed.

Lemma b64_text_decoded bs :
  forallb is_b64_text (latin1_decode (urlsafe_b64encode bs)) = true.
Proof.
  apply forallb_forall. intros c Hc. unfold latin1_decode in Hc.
  apply in_map_iff in Hc as (b & <- & Hb).
  pose proof (urlsafe_b64encode_alphabet bs) as H.
  rewrite Forall_forall in H. apply list_elem_of_In, H in Hb.
  unfold is_b64_text. apply existsb_exists. exists (Byte.to_N b).
  split; [|apply N.eqb_refl].
  unfold latin1_decode. by apply in_map.
Qed.

Lemma timestamp_small now ts :
  (0 <= now < 4294967296)%Z ->
  Fernet.timestamp now = Some ts ->
  ts = [x00; x00; x00; x00] ++ map byte_of_N (SHA256.be32 (Z.to_N now)).
Proof.
  intros Hn. unfold Fernet.timestamp.
  destruct (_ && _); [|discriminate]. intros H.
  assert (ts = map byte_of_N (SHA256.be64 (Z.to_N now))) as -> by congruence.
  clear H. unfold SHA256.be64. rewrite map_app.
  assert (Z.to_N now < 4294967296) as Hlt by lia.
  rewrite (N.div_small (Z.to_N now) 4294967296) by done.
  rewrite (N.mod_small (Z.to_N now) 4294967296) by done. reflexivity.
Qed.

Lemma token_prefix f data now ts iv :
  (0 <= now < 4294967296)%Z ->
  Fernet.timestamp now = Some ts ->
  take 6 (latin1_decode (Fernet.token f data ts iv)) = py "gAAAAA"
  /\ ((1073741824 <= now)%Z -> (now < 2147483648)%Z ->
      take 7 (latin1_decode (Fernet.token f data ts iv)) = py "gAAAAAB").
Proof.
  intros Hn Ht. rewrite (timestamp_small now ts Hn Ht).
  unfold Fernet.token, SHA256.be32.
  cbn [map List.app urlsafe_b64encode latin1_decode take firstn].
  split; [reflexivity|]. intros Hlo Hhi.
  rewrite to_of_byte_N by (apply N.mod_lt; lia).
  assert (1073741824 <= Z.to_N now < 2147483648) as Hr by lia.
  generalize dependent (Z.to_N now). intros n Hr.
  replace ((n / 16777216) mod 256 / 64) with 1 by div_lia.
  reflexivity.
Qed.

(** X6: what [encrypt_text] returns is url-safe base64 text (the
    alphabet and the padding sign only) whose length is fixed by the
    number of UTF-8 bytes of the plaintext: 100 characters for up to 15
    bytes, more in steps as the text grows.  At a clock from 0 to below
    2^32 it begins with "gAAAAA", and between 2^30 and 2^31 (the years
    2004 to 2038) with "gAAAAAB", as in the example of the docstring. *)
Theorem ciphertext_format (text : pystr) (w : World) (data : bytes) :
  utf8_encode text = Some data ->
  (0 <= clock (env w) < 4294967296)%Z ->
  exists c : pystr,
    outcome (encrypt_text text) w = inr c /\
    length c = (4 * ((57 + 16 * (length data / 16 + 1) + 2) / 3))%nat /\
    (100 <= length c)%nat /\
    forallb is_b64_text c = true /\
    take 6 c = py "gAAAAA" /\
    ((1073741824 <= clock (env w))%Z -> (clock (env w) < 2147483648)%Z ->
     take 7 c = py "gAAAAAB").
Proof.
  intros Hd Hc.
  destruct (timestamp_in_range (clock (env w))) as [ts Ht]; [lia|].
  eexists. unfold outcome.
  rewrite (encrypt_text_computes w text data ts Hd Ht). cbn [fst].
  split; [reflexivity|].
  assert (length (latin1_decode
            (Fernet.token (fernet_of (env w)) data ts (drawn (env w) 32 16)))
          = (4 * ((57 + 16 * (length data / 16 + 1) + 2) / 3))%nat) as Hlen.
  { rewrite latin1_decode_length. apply token_length.
    - by eapply timestamp_length.
    - apply urandom_length. }
  split; [done|]. split.
  { rewrite Hlen.
    pose proof (Nat.div_mod_eq (57 + 16 * (length data / 16 + 1) + 2) 3).
    pose proof (Nat.mod_upper_bound (57 + 16 * (length data / 16 + 1) + 2) 3).
    lia. }
  split; [apply b64_text_decoded|].
  by apply (token_prefix _ _ (clock (env w))).
Qed.

Lemma ciphertext_format_witness :
  exists c : pystr,
    outcome (encrypt_text (py "hello world")) sample_world = inr c /\
    length c = (4 * ((57 + 16 * (11 / 16 + 1) + 2) / 3))%nat /\
    (100 <= length c)%nat /\
    forallb is_b64_text c = true /\
    take 6 c = py "gAAAAA" /\
    ((1073741824 <= clock (env sample_world))%Z ->
     (clock (env sample_world) < 2147483648)%Z ->
     take 7 c = py "gAAAAAB").
Proof.
  refine (ciphertext_format (py "hello world") sample_world
            (list_byte_of_string "hello world") eq_refl _).
  by vm_compute.
Defined.

(** ** [encriptar] on every world *)

Lemma encrypt_text_spec text w :
  encrypt_text text w
  = (fst (encrypt_text_result text (env w)),
     mkWorld (app w) (advance (snd (encrypt_text_result text (env w))) (env w))
             (log w) (threads w)).
Proof.
  unfold encrypt_text_result.
  destruct (encrypt_text_cases text w)
    as [(data & ts & Hd & Ht & E)|[(data & Hd & Ht & E)|(Hd & E)]];
    rewrite E; rewrite Hd, ?Ht; reflexivity.
Qed.

Lemma encriptar_spec w :
  encriptar w
  = match contenido_of w with
    | [] => (inr (Some (py "ok")), logged w [nothing_to_encrypt])
    | _ :: _ =>
        let r := encrypt_text_result (contenido_of w) (env w) in
        match fst r with
        | inl ex =>
            (inl ex,
             mkWorld (app w) (advance (snd r) (env w)) (log w) (threads w))
        | inr c =>
            (inr None,
             mkWorld (set_contents W_encriptado c (app w))
                     (advance (snd r) (env w)) (log w) (threads w))
        end
    end.
Proof.
  pose proof (encrypt_text_spec (contenido_of w) w) as E.
  unfold contenido_of in *. open_world w. unfold encriptar. mred.
  destruct (strip _) as [|c t] eqn:Es; [done|].
  cbn [truthy negb]. mred. rewrite E.
  destruct (encrypt_text_result _ _) as [[ex|tok] n]; by mred.
Qed.

Lemma lstrip_blank_app a s :
  forallb py_isspace a = true -> lstrip (a ++ s) = lstrip s.
Proof.
  induction a as [|c a IH]; [done|].
  cbn [forallb List.app lstrip]. intros [-> Ha]%andb_prop. by apply IH.
Qed.

Lemma lstrip_app_nonblank s b :
  lstrip s <> [] -> lstrip (s ++ b) = lstrip s ++ b.
Proof.
  induction s as [|c s IH]; [done|].
  cbn [List.app lstrip]. destruct (py_isspace c); [apply IH|done].
Qed.

Lemma rstrip_app_blank s b :
  forallb py_isspace b = true -> rstrip (s ++ b) = rstrip s.
Proof.
  intros Hb. unfold rstrip. rewrite rev_app_distr, lstrip_blank_app; [done|].
  by rewrite forallb_rev.
Qed.

Lemma strip_app_blank s b :
  forallb py_isspace b = true -> strip (s ++ b) = strip s.
Proof.
  intros Hb. unfold strip.
  destruct (lstrip s) as [|c t] eqn:E.
  - apply lstrip_nil_iff in E.
    assert (lstrip (s ++ b) = []) as ->; [|done].
    apply lstrip_nil_iff. by rewrite forallb_app, E, Hb.
  - rewrite lstrip_app_nonblank by (rewrite E; discriminate).
    rewrite E. by apply rstrip_app_blank.
Qed.

Lemma strip_surrounded a s b :
  forallb py_isspace a = true -> forallb py_isspace b = true ->
  strip (a ++ s ++ b) = strip s.
Proof.
  intros Ha Hb. rewrite app_assoc, strip_app_blank by done.
  unfold strip. by rewrite lstrip_blank_app.
Qed.

Lemma contenido_is_stripped_display w :
  contenido_of w = strip (text_transcripcion (app w)).
Proof. unfold contenido_of. by apply strip_app_blank. Qed.

(** X7: only the trimmed text of the transcription display
    reaches [encrypt_text]: blanks typed before and after the text
    (and the newline Tk appends) change neither what [encriptar]
    returns or raises, nor the ciphertext it shows, nor the random bytes
    it takes, nor what it logs. *)
Theorem encriptar_ignores_surrounding_blanks (w : World) (a b : pystr) :
  forallb py_isspace a = true ->
  forallb py_isspace b = true ->
  let w' := retyped (a ++ text_transcripcion (app w) ++ b) w in
  contenido_of w' = strip (text_transcripcion (app w)) /\
  outcome encriptar w' = outcome encriptar w /\
  text_encriptado (app (after encriptar w'))
    = text_encriptado (app (after encriptar w)) /\
  env (after encriptar w') = env (after encriptar w) /\
  log (after encriptar w') = log (after encriptar w).
Proof.
  intros Ha Hb w'.
  assert (contenido_of w' = contenido_of w) as Hc.
  { rewrite !contenido_is_stripped_display. subst w'. unfold retyped.
    cbn [app]. destruct (app w). cbn [set_contents text_transcripcion].
    by apply strip_surrounded. }
  split; [by rewrite Hc, contenido_is_stripped_display|].
  unfold outcome, after. rewrite (encriptar_spec w'), (encriptar_spec w), Hc.
  subst w'. unfold retyped. cbn [env log threads app].
  destruct (contenido_of w) as [|c t].
  - cbn. by destruct (app w).
  - cbn zeta.
    destruct (fst (encrypt_text_result (c :: t) (env w))) as [ex|tok];
      cbn [fst snd app env log]; by destruct (app w).
Qed.

Lemma encriptar_ignores_surrounding_blanks_witness :
  let w' := retyped ([32; 9] ++ text_transcripcion (app sample_world)
                             ++ [10; 32]) sample_world in
  contenido_of w' = strip (text_transcripcion (app sample_world)) /\
  outcome encriptar w' = outcome encriptar sample_world /\
  text_encriptado (app (after encriptar w'))
    = text_encriptado (app (after encriptar sample_world)) /\
  env (after encriptar w') = env (after encriptar sample_world) /\
  log (after encriptar w') = log (after encriptar sample_world).
Proof.
  exact (encriptar_ignores_surrounding_blanks sample_world [32; 9] [10; 32]
           eq_refl eq_refl).
Defined.

(** X8: [encriptar] has no handler around [encrypt_text]: when
    the trimmed text is not empty and the encryption raises (the text
    does not encode, or the clock is negative or does not fit), the
    exception leaves
    the handler, no error box is shown, nothing is logged and every
    display keeps what it held; the random bytes drawn before the
    failure are gone. *)
Theorem encriptar_fails_silently (w : World) :
  contenido_of w <> [] ->
  utf8_encode (contenido_of w) = None
    \/ (clock (env w) < 0)%Z
    \/ (18446744073709551616 <= clock (env w))%Z ->
  (exists e : PyExc, outcome encriptar w = inl e) /\
  app (after encriptar w) = app w /\
  added encriptar w = [] /\
  threads (after encriptar w) = threads w /\
  (32 <= entropy_pos (env (after encriptar w)) - entropy_pos (env w))%nat.
Proof.
  intros Hne Hbad.
  assert (exists ex n, encrypt_text_result (contenido_of w) (env w)
                       = (inl ex, n) /\ (32 <= n)%nat) as (ex & n & E & Hn).
  { unfold encrypt_text_result.
    destruct (utf8_encode (contenido_of w)) as [data|];
      [|by eexists _, _].
    destruct Hbad as [H|H]; [discriminate|].
    apply timestamp_None_iff in H. rewrite H. eexists _, _. split; [done|lia]. }
  unfold added, outcome, after. rewrite (encriptar_spec w).
  destruct (contenido_of w) as [|c t]; [done|].
  cbn zeta. rewrite E. cbn [fst snd app log threads env].
  rewrite drop_all. repeat split; [by eexists|].
  destruct (env w). cbn. lia.
Qed.

Lemma encriptar_fails_silently_witness :
  (exists e : PyExc, outcome encriptar sample_late = inl e) /\
  app (after encriptar sample_late) = app sample_late /\
  added encriptar sample_late = [] /\
  threads (after encriptar sample_late) = threads sample_late /\
  (32 <= entropy_pos (env (after encriptar sample_late))
         - entropy_pos (env sample_late))%nat.
Proof.
  refine (encriptar_fails_silently sample_late _ (or_intror (or_intror _))).
  - vm_compute. discriminate.
  - vm_compute. discriminate.
Defined.

(** ** Start-up and the first clicks *)

Lemma startup_inversion dotenv environ a :
  startup dotenv environ = inr a ->
  exists key : pystr,
    os_getenv (load_dotenv dotenv environ) credential = Some key
    /\ key <> [] /\ a = initial_app key.
Proof.
  intros H. destruct (startup_runs dotenv environ a H) as [Hk Hne].
  exists (API_KEY a). split; [done|]. split; [done|].
  unfold startup in H. destruct (negb _); [discriminate|].
  injection H as <-. unfold credential in Hk. rewrite Hk. reflexivity.
Qed.

(** X9: start-up goes through exactly when the value read for
    [OPENAI_API_KEY] is a non-empty string, whatever it holds (a value
    of blanks is accepted: the credential is not trimmed); the
    application then starts with that value, no file selected, the three
    displays empty and the progress bar stopped. *)
Theorem startup_succeeds_iff (dotenv environ : gmap pystr pystr) (a : App) :
  startup dotenv environ = inr a
  <-> exists key : pystr,
        os_getenv (load_dotenv dotenv environ) credential = Some key
        /\ key <> [] /\ a = initial_app key.
Proof.
  unfold startup, credential, initial_app.
  destruct (os_getenv _ _) as [k|]; cbn [truthy_opt negb].
  - destruct k as [|c k]; cbn [truthy negb].
    + split; [discriminate|]. intros (key & [= <-] & Hne & _). done.
    + split.
      * intros [= <-]. by exists (c :: k).
      * intros (key & [= <-] & _ & ->). done.
  - split; [discriminate|]. intros (key & H & _). discriminate H.
Qed.

Example startup_accepts_blank_key :
  startup ∅ {[ credential := py "   " ]} = inr (initial_app (py "   ")).
Proof. reflexivity. Qed.

(** X10: on the application as start-up leaves it, whatever the
    surroundings, [transcribir] and [encriptar] both refuse with their
    error box and change nothing, and no worker can run. *)
Theorem fresh_application_refuses (dotenv environ : gmap pystr pystr)
        (a : App) (e : Env) :
  startup dotenv environ = inr a ->
  transcribir (boot a e)
    = (inr (Some (py "ok")), logged (boot a e) [select_first]) /\
  encriptar (boot a e)
    = (inr (Some (py "ok")), logged (boot a e) [nothing_to_encrypt]) /\
  perform Worker_runs (boot a e) = None.
Proof.
  intros H. apply startup_inversion in H as (key & _ & _ & ->).
  split; [by apply transcribir_refuses|]. split; [|done].
  by rewrite encriptar_spec.
Qed.

Lemma fresh_application_refuses_witness :
  transcribir (boot (initial_app (py "sk-test")) sample_env)
    = (inr (Some (py "ok")),
       logged (boot (initial_app (py "sk-test")) sample_env) [select_first]) /\
  encriptar (boot (initial_app (py "sk-test")) sample_env)
    = (inr (Some (py "ok")),
       logged (boot (initial_app (py "sk-test")) sample_env)
              [nothing_to_encrypt]) /\
  perform Worker_runs (boot (initial_app (py "sk-test")) sample_env) = None.
Proof.
  exact (fresh_application_refuses ∅ {[ credential := py "sk-test" ]}
           (initial_app (py "sk-test")) sample_env eq_refl).
Defined.

(** ** From picking a file to the ciphertext *)

(** X11: the four steps in a row, on a readable file and a service
    that answers [text]: pick the file, press transcribe, let the worker
    run, press encrypt.  Whatever [text] is, the selection is the file,
    the raw view its first 3000 bytes, the transcription display [text]
    as returned, one request went out, for that file, and no worker is
    left pending.  What the last step does depends on [text] and on the
    clock.  If [text] is blank once trimmed, a second box says there is
    nothing to encrypt and the output display keeps what it held.  If
    the trimmed text does not encode in UTF-8, or the clock is negative
    or 2^64 or more, the output display keeps what it held and the
    confirmation of the selection is the only box.  Otherwise the
    output display holds the token of the UTF-8 bytes of the trimmed
    text, which differs from that text, and the confirmation of the
    selection is the only box. *)
Theorem select_transcribe_encrypt (w : World) (raw : bytes) (text : pystr) :
  truthy (dialog (env w)) = true ->
  disk (env w) (dialog (env w)) = inr raw ->
  service (env w) model_name (dialog (env w)) raw = inr text ->
  exists w' : World,
    play [Press_seleccionar; Press_transcribir; Worker_runs; Press_encriptar] w
      = Some w' /\
    selected_file (app w') = Some (dialog (env w)) /\
    text_raw (app w') = latin1_decode (take 3000 raw) /\
    text_transcripcion (app w') = text /\
    List.filter is_request (drop (length (log w)) (log w'))
      = [TranscriptionRequest model_name (dialog (env w))] /\
    threads w' = threads w /\
    (strip text = [] ->
       text_encriptado (app w') = text_encriptado (app w) /\
       List.filter is_message (drop (length (log w)) (log w'))
       = [ShowInfo (py "Archivo cargado")
            (py "Archivo cargado:" ++ [10] ++ dialog (env w)
               ++ [10; 10] ++ py "Vista RAW mostrada arriba.");
          nothing_to_encrypt]) /\
    (strip text <> [] ->
     utf8_encode (strip text) = None
       \/ (clock (env w) < 0)%Z
       \/ (18446744073709551616 <= clock (env w))%Z ->
       text_encriptado (app w') = text_encriptado (app w) /\
       List.filter is_message (drop (length (log w)) (log w'))
       = [ShowInfo (py "Archivo cargado")
            (py "Archivo cargado:" ++ [10] ++ dialog (env w)
               ++ [10; 10] ++ py "Vista RAW mostrada arriba.")]) /\
    (forall data : bytes,
       strip text <> [] ->
       utf8_encode (strip text) = Some data ->
       (0 <= clock (env w) < 18446744073709551616)%Z ->
       exists ts : bytes,
         Fernet.timestamp (clock (env w)) = Some ts /\
         text_encriptado (app w')
           = latin1_decode (Fernet.token (fernet_of (env w)) data ts
                                         (iv_of (env w))) /\
         text_encriptado (app w') <> strip text /\
         List.filter is_message (drop (length (log w)) (log w'))
         = [ShowInfo (py "Archivo cargado")
              (py "Archivo cargado:" ++ [10] ++ dialog (env w)
                 ++ [10; 10] ++ py "Vista RAW mostrada arriba.")]).
Proof.
  intros Ht Hd Hv.
  cbn [play perform].
  eassert (after seleccionar_archivo w = _) as ->.
  { unfold after. rewrite (seleccionar_archivo_selected w raw Ht Hd).
    cbn [snd]. reflexivity. }
  eassert (after transcribir _ = _) as ->.
  { unfold after. rewrite transcribir_with_file;
      [cbn [snd app env log threads]; reflexivity|].
    cbn [app]. destruct (app w). exact Ht. }
  cbn [threads app env log].
  match goal with |- context [after run ?x] =>
    replace (after run x)
      with (mkWorld (set_progress false
                       (set_contents W_transcripcion text (app x)))
                    (env x)
                    (log x ++ [OpenFile (dialog (env w));
                               TranscriptionRequest model_name (dialog (env w))])
                    (threads x))
      by (unfold after;
          by rewrite (run_service_answers x (dialog (env w)) raw text
                        eq_refl Hd Hv))
  end.
  cbn [app env log threads].
  match goal with |- context [after encriptar ?x] => set (w3 := x) end.
  assert (contenido_of w3 = strip text) as Hcont.
  { rewrite contenido_is_stripped_display. subst w3. cbn [app].
    by destruct (app w). }
  assert (text_encriptado (app w3) = text_encriptado (app w)) as Hold
    by (subst w3; cbn [app]; by destruct (app w)).
  exists (after encriptar w3). split; [reflexivity|].
  unfold after. rewrite (encriptar_spec w3), Hcont.
  change (env w3) with (env w).
  destruct (strip text) as [|c t] eqn:Es.
  { cbn [snd logged app log threads]. rewrite Hold.
    subst w3. cbn [app log threads].
    rewrite <- !app_assoc, drop_app_length.
    split; [by destruct (app w)|]. split; [by destruct (app w)|].
    split; [by destruct (app w)|]. split; [reflexivity|].
    split; [reflexivity|]. split; [done|]. split; [done|].
    intros data Hne. done. }
  cbv zeta.
  destruct (encrypt_text_result (c :: t) (env w)) as [[ex|tok] n] eqn:ER;
    cbn [fst snd app log threads]; rewrite ?text_encriptado_set, ?Hold;
    subst w3; cbn [app log threads];
    rewrite <- !app_assoc, drop_app_length;
    (split; [by destruct (app w)|]); (split; [by destruct (app w)|]);
    (split; [by destruct (app w)|]); (split; [reflexivity|]);
    (split; [reflexivity|]); (split; [done|]).
  - split; [done|]. intros data _ Henc Hc. exfalso.
    destruct (timestamp_in_range _ Hc) as [ts Hts].
    unfold encrypt_text_result in ER. rewrite Henc, Hts in ER. discriminate.
  - split.
    + intros _ Hbad. exfalso. unfold encrypt_text_result in ER.
      destruct (utf8_encode (c :: t)) as [data|]; [|discriminate].
      destruct Hbad as [Hbad|Hbad]; [discriminate|].
      apply timestamp_None_iff in Hbad. rewrite Hbad in ER. discriminate.
    + intros data _ Henc Hc.
      destruct (timestamp_in_range _ Hc) as [ts Hts].
      unfold encrypt_text_result in ER. rewrite Henc, Hts in ER.
      assert (tok = latin1_decode
                      (Fernet.token (fernet_of (env w)) data ts
                                    (iv_of (env w)))) as ->
        by (unfold iv_of; congruence).
      exists ts. split; [done|]. split; [done|]. split; [|done].
      pose proof (token_at_least_100 (fernet_of (env w)) data ts
                    (iv_of (env w)) (timestamp_length _ _ Hts)
                    (urandom_length _ _ _)) as H100.
      pose proof (token_longer_than_data (fernet_of (env w)) data ts
                    (iv_of (env w)) (timestamp_length _ _ Hts)
                    (urandom_length _ _ _)) as Hlong.
      apply utf8_encode_length in Henc.
      intros Heq. rewrite Heq in H100.
      rewrite <- (latin1_decode_length (Fernet.token _ _ _ _)) in Hlong.
      rewrite Heq in Hlong. lia.
Qed.

Lemma select_transcribe_encrypt_witness :
  exists w' : World,
    play [Press_seleccionar; Press_transcribir; Worker_runs; Press_encriptar]
         sample_answering
      = Some w' /\
    selected_file (app w') = Some (dialog (env sample_answering)) /\
    text_raw (app w') = latin1_decode (take 3000 sample_wav) /\
    text_transcripcion (app w') = py "hello world" /\
    List.filter is_request
      (drop (length (log sample_answering)) (log w'))
      = [TranscriptionRequest model_name (dialog (env sample_answering))] /\
    threads w' = threads sample_answering /\
    (strip (py "hello world") = [] ->
       text_encriptado (app w') = text_encriptado (app sample_answering) /\
       List.filter is_message
         (drop (length (log sample_answering)) (log w'))
       = [ShowInfo (py "Archivo cargado")
            (py "Archivo cargado:" ++ [10] ++ dialog (env sample_answering)
               ++ [10; 10] ++ py "Vista RAW mostrada arriba.");
          nothing_to_encrypt]) /\
    (strip (py "hello world") <> [] ->
     utf8_encode (strip (py "hello world")) = None
       \/ (clock (env sample_answering) < 0)%Z
       \/ (18446744073709551616 <= clock (env sample_answering))%Z ->
       text_encriptado (app w') = text_encriptado (app sample_answering) /\
       List.filter is_message
         (drop (length (log sample_answering)) (log w'))
       = [ShowInfo (py "Archivo cargado")
            (py "Archivo cargado:" ++ [10] ++ dialog (env sample_answering)
               ++ [10; 10] ++ py "Vista RAW mostrada arriba.")]) /\
    (forall data : bytes,
       strip (py "hello world") <> [] ->
       utf8_encode (strip (py "hello world")) = Some data ->
       (0 <= clock (env sample_answering) < 18446744073709551616)%Z ->
       exists ts : bytes,
         Fernet.timestamp (clock (env sample_answering)) = Some ts /\
         text_encriptado (app w')
           = latin1_decode (Fernet.token (fernet_of (env sample_answering))
                                         data ts
                                         (iv_of (env sample_answering))) /\
         text_encriptado (app w') <> strip (py "hello world") /\
         List.filter is_message
           (drop (length (log sample_answering)) (log w'))
         = [ShowInfo (py "Archivo cargado")
              (py "Archivo cargado:" ++ [10] ++ dialog (env sample_answering)
                 ++ [10; 10] ++ py "Vista RAW mostrada arriba.")]).
Proof.
  exact (select_transcribe_encrypt sample_answering sample_wav
           (py "hello world") eq_refl eq_refl eq_refl).
Defined.

(** The same four steps on the sample file when the service answers
    two blanks: the second box, and an output display left empty. *)
Example four_steps_on_a_blank_answer :
  let w := mkWorld (app sample_world)
                   (mkEnv (dialog sample_env) (disk sample_env)
                          (fun _ _ _ => inr (py "  "))
                          (entropy sample_env) 0 (clock sample_env))
                   [] 0 in
  exists w' : World,
    play [Press_seleccionar; Press_transcribir; Worker_runs; Press_encriptar] w
      = Some w' /\
    text_transcripcion (app w') = py "  " /\
    text_encriptado (app w') = [] /\
    List.filter is_message (log w')
    = [ShowInfo (py "Archivo cargado")
         (py "Archivo cargado:" ++ [10] ++ py "sample.wav"
            ++ [10; 10] ++ py "Vista RAW mostrada arriba.");
       nothing_to_encrypt].
Proof. eexists. vm_compute. repeat split. Qed.


Lemma startup_succeeds_iff_witness :
  startup ∅ {[ credential := py "   " ]} = inr (initial_app (py "   ")).
Proof.
  exact (proj2 (startup_succeeds_iff ∅ {[ credential := py "   " ]}
                  (initial_app (py "   ")))
               (ex_intro _ (py "   ")
                  (conj eq_refl (conj (fun H => eq_ind (py "   ")
                     (fun s => match s with [] => False | _ => True end)
                     I [] H) eq_refl)))).
Defined.

(** ** What the event loop keeps *)

Lemma no_request_fixed_model evs :
  List.filter is_request evs = [] -> Forall uses_fixed_model evs.
Proof.
  induction evs as [|ev evs IH]; [constructor|].
  cbn [List.filter]. destruct ev; cbn [is_request]; try discriminate;
    intros H; constructor; try exact I; by apply IH.
Qed.

Lemma steady_extend key w a' e' evs t' :
  steady key w ->
  API_KEY a' = API_KEY (app w) ->
  selected_file a' = selected_file (app w)
    \/ (truthy_opt (selected_file a') = true) ->
  Forall uses_fixed_model evs ->
  (t' <> 0%nat -> truthy_opt (selected_file a') = true) ->
  (count_events is_request evs + t'
   <= count_events is_thread_start evs + threads w)%nat ->
  steady key (mkWorld a' e' (log w ++ evs) t').
Proof.
  intros (Hk & Hs & Ht & Hm & Hc) Ha Hsel Hev Ht' Hcount.
  unfold steady. cbn [app log threads].
  split; [congruence|]. split.
  { destruct Hsel as [->|Hsel]; [done|]. intros E. by rewrite E in Hsel. }
  split; [done|]. split; [by apply Forall_app|].
  rewrite !count_events_app. lia.
Qed.

Ltac count_now :=
  cbv [count_events List.filter is_request is_thread_start length
       select_first nothing_to_encrypt]; lia.

Ltac quiet_now := apply no_request_fixed_model; reflexivity.

Lemma steady_seleccionar key w :
  steady key w -> steady key (after seleccionar_archivo w).
Proof.
  intros H. pose proof H as (_ & _ & Ht & _).
  destruct (truthy (dialog (env w))) eqn:Hd.
  - destruct (disk (env w) (dialog (env w))) as [e|raw] eqn:Hr.
    + unfold after. rewrite (seleccionar_archivo_unreadable w e Hd Hr).
      cbn [snd]. apply steady_extend; [exact H|..].
      * reflexivity.
      * right. exact Hd.
      * quiet_now.
      * intros _. exact Hd.
      * count_now.
    + unfold after. rewrite (seleccionar_archivo_selected w raw Hd Hr).
      cbn [snd]. apply steady_extend; [exact H|..].
      * reflexivity.
      * right. exact Hd.
      * quiet_now.
      * intros _. exact Hd.
      * count_now.
  - unfold after. rewrite (seleccionar_archivo_dismissed w Hd).
    cbn [snd]. unfold logged. apply steady_extend; [exact H|..].
    + reflexivity.
    + by left.
    + quiet_now.
    + exact Ht.
    + count_now.
Qed.

Lemma steady_transcribir key w :
  steady key w -> steady key (after transcribir w).
Proof.
  intros H. pose proof H as (_ & _ & Ht & _).
  destruct (truthy_opt (selected_file (app w))) eqn:Hs.
  - unfold after. rewrite (transcribir_with_file w Hs). cbn [snd].
    apply steady_extend; [exact H|..].
    + reflexivity.
    + by left.
    + quiet_now.
    + intros _. exact Hs.
    + count_now.
  - unfold after. rewrite (transcribir_refuses w Hs). cbn [snd].
    unfold logged. apply steady_extend; [exact H|..].
    + reflexivity.
    + by left.
    + quiet_now.
    + intros Hn. apply Ht in Hn. congruence.
    + count_now.
Qed.

Lemma steady_encriptar key w :
  steady key w -> steady key (after encriptar w).
Proof.
  intros H. pose proof H as (_ & _ & Ht & _).
  unfold after. rewrite encriptar_spec.
  destruct (contenido_of w) as [|c t].
  - cbn [snd]. unfold logged. apply steady_extend; [exact H|..].
    + reflexivity.
    + by left.
    + quiet_now.
    + exact Ht.
    + count_now.
  - cbn zeta.
    destruct (fst (encrypt_text_result (c :: t) (env w))) as [ex|tok];
      cbn [snd]; rewrite <- (app_nil_r (log w));
      (apply steady_extend;
       [exact H|reflexivity|by left|constructor|exact Ht|count_now]).
Qed.

Lemma steady_run key w n :
  steady key w -> threads w = S n ->
  steady key (after run (mkWorld (app w) (env w) (log w) n)).
Proof.
  intros H Hn. pose proof H as (_ & Hne & Ht & _).
  assert (truthy_opt (selected_file (app w)) = true) as Hs
    by (apply Ht; lia).
  destruct (selected_file (app w)) as [path|] eqn:Hsel; [|discriminate].
  set (w0 := mkWorld (app w) (env w) (log w) n).
  destruct (disk (env w) path) as [e|audio] eqn:Hd.
  - unfold after. rewrite (run_open_fails w0 path e Hsel Hd). cbn [snd].
    subst w0. cbn [app env log threads].
    apply steady_extend; [exact H|..].
    + reflexivity.
    + by left.
    + quiet_now.
    + intros _. change (truthy_opt (selected_file (app w)) = true).
      by rewrite Hsel.
    + rewrite Hn. count_now.
  - destruct (run_readable w0 path audio Hsel Hd)
      as (a' & tail & E & Hs' & Hk' & Hr & Hth).
    unfold after. rewrite E. cbn [snd]. subst w0. cbn [app env log threads].
    apply steady_extend; [exact H|..].
    + exact Hk'.
    + left. by rewrite Hs'.
    + apply List.Forall_cons; [exact I|].
      apply List.Forall_cons; [reflexivity|].
      by apply no_request_fixed_model.
    + intros _. by rewrite Hs'.
    + rewrite !count_events_app. unfold count_events at 2 4.
      rewrite Hr, Hth, Hn. count_now.
Qed.

Lemma steady_perform key a w w' :
  steady key w -> perform a w = Some w' -> steady key w'.
Proof.
  intros H. destruct a; cbn [perform].
  - intros [= <-]. by apply steady_seleccionar.
  - intros [= <-]. by apply steady_transcribir.
  - intros [= <-]. by apply steady_encriptar.
  - destruct (threads w) as [|n] eqn:Hn; [discriminate|].
    intros [= <-]. by apply steady_run.
  - intros [= <-]. destruct H as (Hk & Hs & Ht & Hm & Hc).
    unfold steady. cbn [app log threads].
    destruct wd, (app w); cbn in *; done.
  - intros [= <-]. exact H.
Qed.

Lemma steady_play key acts : forall w w',
  steady key w -> play acts w = Some w' -> steady key w'.
Proof.
  induction acts as [|a acts IH]; intros w w' H; cbn [play].
  - by intros [= <-].
  - destruct (perform a w) as [w1|] eqn:E; [|discriminate].
    apply IH. by eapply steady_perform.
Qed.

Lemma steady_boot key e : steady key (boot (initial_app key) e).
Proof.
  unfold steady, boot, initial_app. cbn. repeat split; try done.
Qed.

(** X12: through every session (presses of the three buttons,
    workers running, typing into the displays, changing surroundings)
    that follows a successful start-up, the credential stays the
    non-empty value read at start-up, the selection is never the empty
    path, and as long as a started worker has not run, a file is
    selected: no worker ever meets a missing selection. *)
Theorem session_keeps_credential_and_selection
        (dotenv environ : gmap pystr pystr) (a : App) (e : Env)
        (acts : list Action) (w : World) :
  startup dotenv environ = inr a ->
  play acts (boot a e) = Some w ->
  API_KEY (app w) = API_KEY a /\
  API_KEY (app w) <> [] /\
  selected_file (app w) <> Some [] /\
  (threads w <> 0%nat ->
   exists path, selected_file (app w) = Some path /\ path <> []).
Proof.
  intros Hs Hp. apply startup_inversion in Hs as (key & _ & Hne & ->).
  pose proof (steady_play key acts _ _ (steady_boot key e) Hp)
    as (Hk & Hsel & Ht & _).
  cbn [API_KEY initial_app]. repeat split; try congruence.
  intros Hn. apply Ht in Hn.
  destruct (selected_file (app w)) as [path|]; [|discriminate].
  exists path. split; [done|]. by destruct path.
Qed.

Lemma session_keeps_credential_and_selection_witness :
  let w := default sample_boot (play sample_session sample_boot) in
  API_KEY (app w) = API_KEY (initial_app (py "sk-test")) /\
  API_KEY (app w) <> [] /\
  selected_file (app w) <> Some [] /\
  (threads w <> 0%nat ->
   exists path, selected_file (app w) = Some path /\ path <> []).
Proof.
  refine (session_keeps_credential_and_selection
            ∅ {[ credential := py "sk-test" ]}
            (initial_app (py "sk-test")) (env sample_ready) sample_session
            (default sample_boot (play sample_session sample_boot))
            eq_refl _).
  vm_compute. reflexivity.
Defined.

(** X13: through every such session, every request that went to
    the service names the model "gpt-4o-transcribe", and the requests
    sent plus the workers still to run never exceed the presses of the
    transcribe button that passed the selection check: no request goes
    out that a press did not ask for. *)
Theorem session_requests_are_asked_for
        (dotenv environ : gmap pystr pystr) (a : App) (e : Env)
        (acts : list Action) (w : World) :
  startup dotenv environ = inr a ->
  play acts (boot a e) = Some w ->
  Forall uses_fixed_model (log w) /\
  (count_events is_request (log w) + threads w
   <= count_events is_thread_start (log w))%nat.
Proof.
  intros Hs Hp. apply startup_inversion in Hs as (key & _ & Hne & ->).
  by pose proof (steady_play key acts _ _ (steady_boot key e) Hp)
    as (_ & _ & _ & Hm & Hc).
Qed.

Lemma session_requests_are_asked_for_witness :
  let w := default sample_boot (play sample_session sample_boot) in
  Forall uses_fixed_model (log w) /\
  (count_events is_request (log w) + threads w
   <= count_events is_thread_start (log w))%nat.
Proof.
  refine (session_requests_are_asked_for
            ∅ {[ credential := py "sk-test" ]}
            (initial_app (py "sk-test")) (env sample_ready) sample_session
            (default sample_boot (play sample_session sample_boot))
            eq_refl _).
  vm_compute. reflexivity.
Defined.

(** The sample session, played: two workers were started, one has run
    and sent its request, and the ciphertext of the typed text is on
    display. *)
Example sample_session_played :
  let w := default sample_boot (play sample_session sample_boot) in
  threads w = 1%nat /\
  count_events is_thread_start (log w) = 2%nat /\
  count_events is_request (log w) = 1%nat /\
  text_transcripcion (app w) = py " hola " /\
  length (text_encriptado (app w)) = 100%nat.
Proof. vm_compute. repeat split. Qed.
